(** * Section_4_hls4ml.ipynb and vivado_synth.rpt: a shallow embedding

    The notebook drives an external HLS converter.  What the repository itself
    contains is: two helper functions ([get_train_test_set], [print_dict]),
    a handful of dictionary assignments on the configuration [cfg], three
    assignments to class attributes of the converter, a fixed sequence of
    calls into external libraries, and one checked-in utilization report.

    Python objects are embedded as a tree of values.  A dict is an
    association list in insertion order (iteration order of [d.items()] is
    observable through [print_dict]).  The configuration returned by
    [config_from_keras_model] is a tree of freshly built dicts, so item
    assignment through a chain of subscripts is embedded as a functional
    update along the path.  A [str] is embedded as its UTF-8 encoding, and
    its length counts characters, not bytes.  A Python function that calls
    itself runs under the interpreter's recursion limit: the embedding of
    [print_dict] carries the number of nested calls still admitted. *)

From Stdlib Require Import ZArith List String Ascii Bool Lia.
From Stdlib Require Import QArith DecimalString Strings.Byte.
Import ListNotations.
Open Scope string_scope.
Open Scope Z_scope.

(* ================================================================== *)
(** ** Python values, exceptions, dict operations *)

Module Py.

Inductive pykey : Type :=
| KStr (s : string)
| KInt (z : Z).

#[warnings="-register-all"]
Inductive pyval : Type :=
| VNone
| VBool (b : bool)
| VInt (z : Z)
| VStr (s : string)
| VDict (d : list (pykey * pyval)).

Definition pydict : Type := list (pykey * pyval).

Inductive pyexc : Type :=
| KeyError (k : pykey)
| TypeError
| AttributeError
| IndexError
| ValueError
| NameError (name : string)
| RecursionError
| ExternalError (stage : string).

Inductive result (A : Type) : Type :=
| Ok (a : A)
| Raise (e : pyexc).
Arguments Ok {A} a.
Arguments Raise {A} e.

Definition rbind {A B} (r : result A) (f : A -> result B) : result B :=
  match r with
  | Ok a => f a
  | Raise e => Raise e
  end.

Definition key_eqb (a b : pykey) : bool :=
  match a, b with
  | KStr s, KStr t => String.eqb s t
  | KInt x, KInt y => Z.eqb x y
  | _, _ => false
  end.

(** [d[k]] on the entries of a dict: the value stored under [k], if any. *)
Fixpoint dict_get (d : pydict) (k : pykey) : option pyval :=
  match d with
  | [] => None
  | (k', v) :: rest => if key_eqb k' k then Some v else dict_get rest k
  end.

(** [d[k] = v] on the entries of a dict: an existing key keeps its position,
    a new key goes last. *)
Fixpoint dict_set (d : pydict) (k : pykey) (v : pyval) : pydict :=
  match d with
  | [] => [(k, v)]
  | (k', v') :: rest =>
      if key_eqb k' k then (k', v) :: rest else (k', v') :: dict_set rest k v
  end.

(** Subscription [obj[k]] with a [str] subscript.  Only a dict accepts it;
    [None], [bool] and [int] are not subscriptable and a [str] wants an
    integer index: all of them raise [TypeError]. *)
Definition getitem (obj : pyval) (k : string) : result pyval :=
  match obj with
  | VDict d =>
      match dict_get d (KStr k) with
      | Some v => Ok v
      | None => Raise (KeyError (KStr k))
      end
  | _ => Raise TypeError
  end.

(** Item assignment [obj[k] = v] with a [str] subscript: the object after
    the assignment. *)
Definition setitem (obj : pyval) (k : string) (v : pyval) : result pyval :=
  match obj with
  | VDict d => Ok (VDict (dict_set d (KStr k) v))
  | _ => Raise TypeError
  end.

(** The statement [root[p1]...[pn][k] = v].  Python evaluates the chain of
    subscriptions left to right, then stores into the dict the chain ends
    in; the dicts on the way are the same objects as before, here rebuilt
    along the path. *)
Fixpoint store_subscr (root : pyval) (path : list string) (k : string)
         (v : pyval) : result pyval :=
  match path with
  | [] => setitem root k v
  | p :: ps =>
      rbind (getitem root p) (fun sub =>
      rbind (store_subscr sub ps k v) (fun sub' =>
      setitem root p sub'))
  end.

(** Reading [root[a1]...[an]]; [None] when some subscription would raise. *)
Fixpoint lookup (root : pyval) (addr : list string) : option pyval :=
  match addr with
  | [] => Some root
  | a :: rest =>
      match getitem root a with
      | Ok sub => lookup sub rest
      | Raise _ => None
      end
  end.

(** [s * n] for a string [s] and an integer [n]: empty when [n <= 0]. *)
Definition str_mul (s : string) (n : Z) : string :=
  if n <=? 0 then "" else String.concat "" (repeat s (Z.to_nat n)).

(** [str(k)] for a key. *)
Definition str_key (k : pykey) : string :=
  match k with
  | KStr s => s
  | KInt z => NilZero.string_of_int (Z.to_int z)
  end.

(** A byte of a UTF-8 encoding that continues a character: [10xxxxxx]. *)
Definition is_continuation (c : ascii) : bool :=
  match c with
  | Ascii _ _ _ _ _ _ b6 b7 => b7 && negb b6
  end.

(** [len(s)] for a [str]: its characters (code points), which in the UTF-8
    encoding are the bytes that do not continue a character. *)
Fixpoint py_len (s : string) : nat :=
  match s with
  | EmptyString => O
  | String c s' => ((if is_continuation c then 0 else 1) + py_len s')%nat
  end.

(** [len(k)] for a key: the number of characters of a [str], [TypeError]
    on an [int]. *)
Definition len_key (k : pykey) : result Z :=
  match k with
  | KStr s => Ok (Z.of_nat (py_len s))
  | KInt _ => Raise TypeError
  end.

(** [str(v)] for a value that is not a dict; [print_dict] converts no
    other value, and the last case is never reached from it. *)
Definition str_scalar (v : pyval) : string :=
  match v with
  | VNone => "None"
  | VBool true => "True"
  | VBool false => "False"
  | VInt z => NilZero.string_of_int (Z.to_int z)
  | VStr s => s
  | VDict _ => ""
  end.

End Py.
Import Py.

(* ================================================================== *)
(** ** Arrays: the numpy and Keras operations [get_train_test_set] uses *)

Module Np.

(** A [uint8] image is rows of bytes; a float matrix is rows of rationals.
    Every value the notebook computes on the data set is a [uint8] divided
    by 256 or a 0/1 indicator, which binary floating point represents
    exactly. *)
Definition image : Type := list (list byte).
Definition matrix : Type := list (list Q).
Definition dataset : Type :=
  ((list image * list byte) * (list image * list byte))%type.

Definition pixel (p : byte) : Z := Z.of_N (Byte.to_N p).

(** [x / 256.0] on a [uint8] array of images. *)
Definition div_256 (x : list image) : list (list (list Q)) :=
  map (map (map (fun p => pixel p # 256))) x.

(** [x.reshape(x.shape[0], -1)]: every sample becomes the row-major
    concatenation of its rows.  numpy infers the [-1] dimension by dividing
    the number of elements by [x.shape[0]]: without any sample it cannot
    and raises [ValueError]; samples without pixels become empty rows. *)
Definition reshape_rows (x : list (list (list Q))) : result matrix :=
  if (List.length x =? 0)%nat then Raise ValueError
  else Ok (map (@List.concat Q) x).

(** One row of [to_categorical]: zeros with a one in column [c]. *)
Definition one_hot (num_classes : nat) (c : N) : list Q :=
  map (fun j => if (N.of_nat j =? c)%N then 1%Q else 0%Q) (seq 0 num_classes).

(** [to_categorical(y, num_classes)] on [uint8] labels: a row of zeros per
    label, then a one stored at column [y]; a label that is not a column
    raises [IndexError]. *)
Definition to_categorical (y : list byte) (num_classes : nat) : result matrix :=
  if forallb (fun c => (Byte.to_N c <? N.of_nat num_classes)%N) y
  then Ok (map (fun c => one_hot num_classes (Byte.to_N c)) y)
  else Raise IndexError.

End Np.
Import Np.

(* ================================================================== *)
(** ** [print_dict] *)

(** One call [print(text, end=end_)]. *)
Record print_call : Type := PrintCall { text : string; end_ : string }.

Definition nl : string := String (ascii_of_nat 10) "".

(** Output written so far together with the outcome. *)
Definition W (A : Type) : Type := (list print_call * result A)%type.

Definition wret {A} (a : A) : W A := ([], Ok a).

Definition wbind {A B} (m : W A) (f : A -> W B) : W B :=
  match m with
  | (o, Ok a) => let (o', r) := f a in ((o ++ o')%list, r)
  | (o, Raise e) => (o, Raise e)
  end.

Definition print (s e : string) : W unit := ([PrintCall s e], Ok tt).

Definition wlift {A} (r : result A) : W A := ([], r).

(** [print_dict(d, indent)], called where the interpreter still admits
    [frames] nested calls of the function; the built-in calls of the body
    are taken to fit beside each admitted call.  Without a frame left the
    call raises [RecursionError].  [d.items()] exists on a dict only; the
    loop body prints the key without a newline, then either ends the line
    and descends with [indent+1], one frame deeper, or prints the padded
    value. *)
Fixpoint print_dict (frames : nat) (d : pyval) (indent : Z) : W unit :=
  match frames with
  | O => wlift (Raise RecursionError)
  | S deeper =>
      match d with
      | VDict items =>
          (fix loop (l : pydict) : W unit :=
             match l with
             | [] => wret tt
             | (key, value) :: rest =>
                 wbind (print (str_mul "  " indent ++ str_key key) "")
                   (fun _ =>
                 wbind
                   match value with
                   | VDict _ =>
                       wbind (print "" nl) (fun _ =>
                       print_dict deeper value (indent + 1))
                   | _ =>
                       wbind (wlift (len_key key)) (fun n =>
                       print (":" ++ str_mul " " (20 - n - 2 * indent)
                                  ++ str_scalar value) nl)
                   end (fun _ =>
                 loop rest))
             end) items
      | _ => wlift (Raise AttributeError)
      end
  end.


(* ================================================================== *)
(** ** The notebook: external collaborators, interpreter state, cells *)

(** Class attributes of [hls4ml.model.optimizer.OutputRoundingSaturationMode]:
    state of the converter's process, outside any configuration dict. *)
Record optimizer_attrs : Type := OptimizerAttrs {
  layers : list string;
  rounding_mode : option string;
  saturation_mode : option string
}.

Section Workflow.

(** Opaque objects of the external libraries. *)
Context {Model Hls Registry : Type}.

(** The library functions the notebook calls, and the interpreter the
    kernel runs on.  The converter reads the optimizer's class attributes
    when it runs, so they are an argument.  [recursion_headroom] is the
    number of nested calls of a Python function that the interpreter
    admits from the top level of a cell. *)
Record External : Type := {
  recursion_headroom : nat;
  add_supported_quantized_objects : result Registry;
  load_model : string -> Registry -> result Model;
  config_from_keras_model : Model -> string -> result pyval;
  convert_from_keras_model :
    Model -> pyval -> string -> string -> optimizer_attrs -> result Hls;
  compile : Hls -> result unit;
  mnist_load_data : result dataset;
  hls_predict : Hls -> matrix -> result matrix;
  model_predict : Model -> matrix -> result matrix;
  np_argmax_axis1 : matrix -> result (list Z);
  accuracy_score : list Z -> list Z -> result Q;
  build : Hls -> bool -> bool -> bool -> bool -> result unit;
  get_output_dir : Hls -> result string;
  read_vivado_report : string -> result unit
}.

(** What an observer of the process sees, in order. *)
Inductive event : Type :=
| Stdout (c : print_call)
| StdoutFmt (template : string) (arg : Q)
| CallAddQuantized
| CallLoadModel (path : string) (custom_objects : Registry)
| CallConfigFromKeras (m : Model) (granularity : string)
| CallConvert (m : Model) (hls_config : pyval) (output_dir fpga_part : string)
              (attrs : optimizer_attrs)
| CallCompile (h : Hls)
| CallMnistLoad
| CallPredictHls (h : Hls) (x : matrix)
| CallPredictModel (m : Model) (x : matrix)
| CallBuild (h : Hls) (csim synth vsynth export : bool)
| CallReadReport (dir : string).

(** Global names of the kernel, the optimizer's class attributes, and the
    events so far. *)
Record globals : Type := Globals {
  g_co : option Registry;
  g_model : option Model;
  g_cfg : option pyval;
  g_hls_model : option Hls;
  g_train : option (matrix * matrix);
  g_test : option (matrix * matrix);
  g_y_hls : option matrix;
  g_y_qke : option matrix;
  g_orsm : optimizer_attrs;
  g_log : list event
}.

Definition set_co v g := Globals (Some v) (g_model g) (g_cfg g)
  (g_hls_model g) (g_train g) (g_test g) (g_y_hls g) (g_y_qke g) (g_orsm g)
  (g_log g).
Definition set_model v g := Globals (g_co g) (Some v) (g_cfg g)
  (g_hls_model g) (g_train g) (g_test g) (g_y_hls g) (g_y_qke g) (g_orsm g)
  (g_log g).
Definition set_cfg v g := Globals (g_co g) (g_model g) (Some v)
  (g_hls_model g) (g_train g) (g_test g) (g_y_hls g) (g_y_qke g) (g_orsm g)
  (g_log g).
Definition set_hls_model v g := Globals (g_co g) (g_model g) (g_cfg g)
  (Some v) (g_train g) (g_test g) (g_y_hls g) (g_y_qke g) (g_orsm g)
  (g_log g).
Definition set_data tr te g := Globals (g_co g) (g_model g) (g_cfg g)
  (g_hls_model g) (Some tr) (Some te) (g_y_hls g) (g_y_qke g) (g_orsm g)
  (g_log g).
Definition set_y_hls v g := Globals (g_co g) (g_model g) (g_cfg g)
  (g_hls_model g) (g_train g) (g_test g) (Some v) (g_y_qke g) (g_orsm g)
  (g_log g).
Definition set_y_qke v g := Globals (g_co g) (g_model g) (g_cfg g)
  (g_hls_model g) (g_train g) (g_test g) (g_y_hls g) (Some v) (g_orsm g)
  (g_log g).
Definition set_orsm a g := Globals (g_co g) (g_model g) (g_cfg g)
  (g_hls_model g) (g_train g) (g_test g) (g_y_hls g) (g_y_qke g) a
  (g_log g).
Definition add_log (es : list event) g := Globals (g_co g) (g_model g)
  (g_cfg g) (g_hls_model g) (g_train g) (g_test g) (g_y_hls g) (g_y_qke g)
  (g_orsm g) (g_log g ++ es)%list.

(** A fresh kernel: no global is bound, nothing has happened; the
    optimizer's attributes are whatever the library ships. *)
Definition fresh (a : optimizer_attrs) : globals :=
  Globals None None None None None None None None a [].

(** Statements: state in, state out, and either a value or the exception
    that stopped the statement. *)
Definition NB (A : Type) : Type := globals -> globals * result A.

Definition ret {A} (a : A) : NB A := fun g => (g, Ok a).

Definition bind {A B} (m : NB A) (f : A -> NB B) : NB B :=
  fun g =>
    match m g with
    | (g', Ok a) => f a g'
    | (g', Raise e) => (g', Raise e)
    end.

Definition lift {A} (r : result A) : NB A := fun g => (g, r).

Definition modify (f : globals -> globals) : NB unit :=
  fun g => (f g, Ok tt).

(** Reading a global name. *)
Definition name {A} (n : string) (proj : globals -> option A) : NB A :=
  fun g =>
    match proj g with
    | Some a => (g, Ok a)
    | None => (g, Raise (NameError n))
    end.

(** A call into a library: observed, then it returns or raises. *)
Definition call {A} (e : event) (r : result A) : NB A :=
  fun g => (add_log [e] g, r).

(** Output of a printing function goes to the log, its outcome stays. *)
Definition run_print {A} (w : W A) : NB A :=
  fun g => (add_log (map Stdout (fst w)) g, snd w).

End Workflow.
Arguments External : clear implicits.
Arguments event : clear implicits.
Arguments globals : clear implicits.
Arguments NB : clear implicits.

Declare Scope nb_scope.
Delimit Scope nb_scope with nb.
Notation "x <- m ;; k" := (bind m (fun x => k))
  (at level 100, m at next level, right associativity) : nb_scope.
Notation "m ;; k" := (bind m (fun _ => k))
  (at level 100, right associativity) : nb_scope.

Section Cells.

Context {Model Hls Registry : Type}.
Variable E : External Model Hls Registry.

Local Open Scope nb_scope.
Local Abbreviation NB' := (NB Model Hls Registry).

(** [get_train_test_set()]. *)
Definition get_train_test_set
  : NB' ((matrix * matrix) * (matrix * matrix)) :=
  d <- call CallMnistLoad (mnist_load_data E) ;;
  let '((x_train, y_train), (x_test, y_test)) := d in
  let x_train := div_256 x_train in
  let x_test := div_256 x_test in
  x_train <- lift (reshape_rows x_train) ;;
  x_test <- lift (reshape_rows x_test) ;;
  y_train <- lift (to_categorical y_train 10) ;;
  y_test <- lift (to_categorical y_test 10) ;;
  ret ((x_train, y_train), (x_test, y_test)).

(** [co = {}] and [_add_supported_quantized_objects(co)]. *)
Definition cell_imports : NB' unit :=
  co <- call CallAddQuantized (add_supported_quantized_objects E) ;;
  modify (set_co co).

(** [model = tf.keras.models.load_model(path, custom_objects=co)]. *)
Definition cell_load_model : NB' unit :=
  co <- name "co" g_co ;;
  m <- call (CallLoadModel "./section2_model_0.h5" co)
            (load_model E "./section2_model_0.h5" co) ;;
  modify (set_model m).

(** [cfg = config_from_keras_model(model, granularity='name')] and
    [print_dict(cfg)]. *)
Definition cell_make_config : NB' unit :=
  m <- name "model" g_model ;;
  c <- call (CallConfigFromKeras m "name")
            (config_from_keras_model E m "name") ;;
  modify (set_cfg c) ;;
  c <- name "cfg" g_cfg ;;
  run_print (print_dict (recursion_headroom E) c 0).

(** The statement [cfg[p1]...[pn][k] = v] on the global [cfg]. *)
Definition assign_cfg (path : list string) (k : string) (v : pyval)
  : NB' unit :=
  c <- name "cfg" g_cfg ;;
  c' <- lift (store_subscr c path k v) ;;
  modify (set_cfg c').

(** The dict display assigned to [cfg['Model']]. *)
Definition model_scope : pyval :=
  VDict [(KStr "Precision", VStr "ap_fixed<16,6>");
         (KStr "ReuseFactor", VInt 1);
         (KStr "Strategy", VStr "Resource")].

(** The four assignments to [cfg]. *)
Definition overrides : NB' unit :=
  assign_cfg [] "Model" model_scope ;;
  assign_cfg ["LayerName"; "q_dense"] "ReuseFactor" (VInt 112) ;;
  assign_cfg ["LayerName"; "q_dense_1"] "Strategy" (VStr "Latency") ;;
  assign_cfg ["LayerName"; "activation_2"] "Strategy" (VStr "Stable").

(** The three assignments to the optimizer's class attributes. *)
Definition set_rounding_saturation : NB' unit :=
  modify (fun g => set_orsm
    (OptimizerAttrs ["Activation"] (rounding_mode (g_orsm g))
                    (saturation_mode (g_orsm g))) g) ;;
  modify (fun g => set_orsm
    (OptimizerAttrs (layers (g_orsm g)) (Some "AP_RND")
                    (saturation_mode (g_orsm g))) g) ;;
  modify (fun g => set_orsm
    (OptimizerAttrs (layers (g_orsm g)) (rounding_mode (g_orsm g))
                    (Some "AP_SAT")) g).

(** The cell with the overrides, [print_dict(cfg)] and the attributes. *)
Definition cell_overrides : NB' unit :=
  overrides ;;
  c <- name "cfg" g_cfg ;;
  run_print (print_dict (recursion_headroom E) c 0) ;;
  set_rounding_saturation.

(** [hls_model = convert_from_keras_model(model, hls_config=cfg,
    output_dir=..., fpga_part=...)] and [hls_model.compile()]. *)
Definition cell_convert : NB' unit :=
  m <- name "model" g_model ;;
  c <- name "cfg" g_cfg ;;
  h <- (fun g =>
          call (CallConvert m c "section2_hls4ml_prj" "xcu250-figd2104-2L-e"
                            (g_orsm g))
               (convert_from_keras_model E m c "section2_hls4ml_prj"
                                         "xcu250-figd2104-2L-e" (g_orsm g))
               g) ;;
  modify (set_hls_model h) ;;
  h <- name "hls_model" g_hls_model ;;
  call (CallCompile h) (compile E h).

(** The data set, then [y_hls = hls_model.predict(x_test)] and
    [y_qke = model.predict(x_test)]. *)
Definition cell_predict : NB' unit :=
  d <- get_train_test_set ;;
  modify (set_data (fst d) (snd d)) ;;
  h <- name "hls_model" g_hls_model ;;
  te <- name "x_test" g_test ;;
  y <- call (CallPredictHls h (fst te)) (hls_predict E h (fst te)) ;;
  modify (set_y_hls y) ;;
  m <- name "model" g_model ;;
  te <- name "x_test" g_test ;;
  y <- call (CallPredictModel m (fst te)) (model_predict E m (fst te)) ;;
  modify (set_y_qke y).

(** [print(template.format(accuracy_score(np.argmax(y_test, axis=1),
    np.argmax(y, axis=1))))]. *)
Definition print_accuracy (template : string) (yname : string)
           (y : globals Model Hls Registry -> option matrix) : NB' unit :=
  te <- name "y_test" g_test ;;
  truth <- lift (np_argmax_axis1 E (snd te)) ;;
  yp <- name yname y ;;
  pred <- lift (np_argmax_axis1 E yp) ;;
  acc <- lift (accuracy_score E truth pred) ;;
  modify (add_log [StdoutFmt template acc]).

Definition cell_accuracy : NB' unit :=
  print_accuracy "QKeras Accuracy: {}" "y_qke" g_y_qke ;;
  print_accuracy "hls4ml Accuracy: {}" "y_hls" g_y_hls.

(** [hls_model.build(csim=False, synth=True, vsynth=True, export=False)]. *)
Definition cell_build : NB' unit :=
  h <- name "hls_model" g_hls_model ;;
  call (CallBuild h false true true false) (build E h false true true false).

(** [hls4ml.report.read_vivado_report(hls_model.config.get_output_dir())]. *)
Definition cell_report : NB' unit :=
  h <- name "hls_model" g_hls_model ;;
  dir <- lift (get_output_dir E h) ;;
  call (CallReadReport dir) (read_vivado_report E dir).

(** The cells in notebook order; an exception stops the run. *)
Definition notebook : NB' unit :=
  cell_imports ;;
  cell_load_model ;;
  cell_make_config ;;
  cell_overrides ;;
  cell_convert ;;
  cell_predict ;;
  cell_accuracy ;;
  cell_build ;;
  cell_report.

End Cells.

(* ================================================================== *)
(** ** The checked-in utilization report *)

Module Report.

(** files/section2_hls4ml_prj_1/vivado_synth.rpt, line by line (every line
    of the file ends with a newline character). *)
Definition vivado_synth_rpt : list string := [
  "Copyright 1986-2019 Xilinx, Inc. All Rights Reserved.";
  "------------------------------------------------------------------------------------";
  "| Tool Version : Vivado v.2019.2 (lin64) Build 2708876 Wed Nov  6 21:39:14 MST 2019";
  "| Date         : Thu Nov  5 15:17:34 2020";
  "| Host         : yavin running 64-bit Ubuntu 18.04.5 LTS";
  "| Command      : report_utilization -file vivado_synth.rpt";
  "| Design       : myproject";
  "| Device       : xcu250figd2104-2L";
  "| Design State : Synthesized";
  "------------------------------------------------------------------------------------";
  "";
  "Utilization Design Information";
  "";
  "Table of Contents";
  "-----------------";
  "1. CLB Logic";
  "1.1 Summary of Registers by Type";
  "2. BLOCKRAM";
  "3. ARITHMETIC";
  "4. I/O";
  "5. CLOCK";
  "6. ADVANCED";
  "7. CONFIGURATION";
  "8. Primitives";
  "9. Black Boxes";
  "10. Instantiated Netlists";
  "11. SLR Connectivity";
  "12. SLR Connectivity Matrix";
  "13. SLR CLB Logic and Dedicated Block Utilization";
  "14. SLR IO Utilization";
  "";
  "1. CLB Logic";
  "------------";
  "";
  "+----------------------------+-------+-------+-----------+-------+";
  "|          Site Type         |  Used | Fixed | Available | Util% |";
  "+----------------------------+-------+-------+-----------+-------+";
  "| CLB LUTs*                  | 50888 |     0 |   1728000 |  2.94 |";
  "|   LUT as Logic             | 50536 |     0 |   1728000 |  2.92 |";
  "|   LUT as Memory            |   352 |     0 |    791040 |  0.04 |";
  "|     LUT as Distributed RAM |     0 |     0 |           |       |";
  "|     LUT as Shift Register  |   352 |     0 |           |       |";
  "| CLB Registers              | 71920 |     0 |   3456000 |  2.08 |";
  "|   Register as Flip Flop    | 71920 |     0 |   3456000 |  2.08 |";
  "|   Register as Latch        |     0 |     0 |   3456000 |  0.00 |";
  "| CARRY8                     |  1693 |     0 |    216000 |  0.78 |";
  "| F7 Muxes                   |  2027 |     0 |    864000 |  0.23 |";
  "| F8 Muxes                   |   795 |     0 |    432000 |  0.18 |";
  "| F9 Muxes                   |     0 |     0 |    216000 |  0.00 |";
  "+----------------------------+-------+-------+-----------+-------+";
  "* Warning! The Final LUT count, after physical optimizations and full implementation, is typically lower. Run opt_design after synthesis, if not already completed, for a more realistic count.";
  "";
  "";
  "1.1 Summary of Registers by Type";
  "--------------------------------";
  "";
  "+-------+--------------+-------------+--------------+";
  "| Total | Clock Enable | Synchronous | Asynchronous |";
  "+-------+--------------+-------------+--------------+";
  "| 0     |            _ |           - |            - |";
  "| 0     |            _ |           - |          Set |";
  "| 0     |            _ |           - |        Reset |";
  "| 0     |            _ |         Set |            - |";
  "| 0     |            _ |       Reset |            - |";
  "| 0     |          Yes |           - |            - |";
  "| 0     |          Yes |           - |          Set |";
  "| 0     |          Yes |           - |        Reset |";
  "| 1786  |          Yes |         Set |            - |";
  "| 70134 |          Yes |       Reset |            - |";
  "+-------+--------------+-------------+--------------+";
  "";
  "";
  "2. BLOCKRAM";
  "-----------";
  "";
  "+-------------------+------+-------+-----------+-------+";
  "|     Site Type     | Used | Fixed | Available | Util% |";
  "+-------------------+------+-------+-----------+-------+";
  "| Block RAM Tile    |  580 |     0 |      2688 | 21.58 |";
  "|   RAMB36/FIFO*    |  348 |     0 |      2688 | 12.95 |";
  "|     RAMB36E2 only |  348 |       |           |       |";
  "|   RAMB18          |  464 |     0 |      5376 |  8.63 |";
  "|     RAMB18E2 only |  464 |       |           |       |";
  "| URAM              |    0 |     0 |      1280 |  0.00 |";
  "+-------------------+------+-------+-----------+-------+";
  "* Note: Each Block RAM Tile only has one FIFO logic available and therefore can accommodate only one FIFO36E2 or one FIFO18E2. However, if a FIFO18E2 occupies a Block RAM Tile, that tile can still accommodate a RAMB18E2";
  "";
  "";
  "3. ARITHMETIC";
  "-------------";
  "";
  "+----------------+------+-------+-----------+-------+";
  "|    Site Type   | Used | Fixed | Available | Util% |";
  "+----------------+------+-------+-----------+-------+";
  "| DSPs           |   79 |     0 |     12288 |  0.64 |";
  "|   DSP48E2 only |   79 |       |           |       |";
  "+----------------+------+-------+-----------+-------+";
  "";
  "";
  "4. I/O";
  "------";
  "";
  "+------------+-------+-------+-----------+---------+";
  "|  Site Type |  Used | Fixed | Available |  Util%  |";
  "+------------+-------+-------+-----------+---------+";
  "| Bonded IOB | 12755 |     0 |       676 | 1886.83 |";
  "+------------+-------+-------+-----------+---------+";
  "";
  "";
  "5. CLOCK";
  "--------";
  "";
  "+----------------------+------+-------+-----------+-------+";
  "|       Site Type      | Used | Fixed | Available | Util% |";
  "+----------------------+------+-------+-----------+-------+";
  "| GLOBAL CLOCK BUFFERs |    1 |     0 |      1344 |  0.07 |";
  "|   BUFGCE             |    1 |     0 |       384 |  0.26 |";
  "|   BUFGCE_DIV         |    0 |     0 |        64 |  0.00 |";
  "|   BUFG_GT            |    0 |     0 |       768 |  0.00 |";
  "|   BUFGCTRL*          |    0 |     0 |       128 |  0.00 |";
  "| PLL                  |    0 |     0 |        32 |  0.00 |";
  "| MMCM                 |    0 |     0 |        16 |  0.00 |";
  "+----------------------+------+-------+-----------+-------+";
  "* Note: Each used BUFGCTRL counts as two GLOBAL CLOCK BUFFERs. This table does not include global clocking resources, only buffer cell usage. See the Clock Utilization Report (report_clock_utilization) for detailed accounting of global clocking resource availability.";
  "";
  "";
  "6. ADVANCED";
  "-----------";
  "";
  "+-----------------+------+-------+-----------+-------+";
  "|    Site Type    | Used | Fixed | Available | Util% |";
  "+-----------------+------+-------+-----------+-------+";
  "| CMACE4          |    0 |     0 |        12 |  0.00 |";
  "| GTYE4_CHANNEL   |    0 |     0 |        24 |  0.00 |";
  "| GTYE4_COMMON    |    0 |     0 |         6 |  0.00 |";
  "| ILKNE4          |    0 |     0 |         8 |  0.00 |";
  "| OBUFDS_GTE4     |    0 |     0 |        12 |  0.00 |";
  "| OBUFDS_GTE4_ADV |    0 |     0 |        12 |  0.00 |";
  "| PCIE40E4        |    0 |     0 |         4 |  0.00 |";
  "| SYSMONE4        |    0 |     0 |         4 |  0.00 |";
  "+-----------------+------+-------+-----------+-------+";
  "";
  "";
  "7. CONFIGURATION";
  "----------------";
  "";
  "+-------------+------+-------+-----------+-------+";
  "|  Site Type  | Used | Fixed | Available | Util% |";
  "+-------------+------+-------+-----------+-------+";
  "| BSCANE2     |    0 |     0 |        16 |  0.00 |";
  "| DNA_PORTE2  |    0 |     0 |         4 |  0.00 |";
  "| EFUSE_USR   |    0 |     0 |         4 |  0.00 |";
  "| FRAME_ECCE4 |    0 |     0 |         4 |  0.00 |";
  "| ICAPE3      |    0 |     0 |         8 |  0.00 |";
  "| MASTER_JTAG |    0 |     0 |         4 |  0.00 |";
  "| STARTUPE3   |    0 |     0 |         4 |  0.00 |";
  "+-------------+------+-------+-----------+-------+";
  "";
  "";
  "8. Primitives";
  "-------------";
  "";
  "+----------+-------+---------------------+";
  "| Ref Name |  Used | Functional Category |";
  "+----------+-------+---------------------+";
  "| FDRE     | 70134 |            Register |";
  "| LUT3     | 31613 |                 CLB |";
  "| LUT6     | 14893 |                 CLB |";
  "| LUT2     | 14417 |                 CLB |";
  "| INBUF    | 12548 |                 I/O |";
  "| IBUFCTRL | 12548 |              Others |";
  "| LUT5     |  5474 |                 CLB |";
  "| LUT4     |  5344 |                 CLB |";
  "| LUT1     |  3092 |                 CLB |";
  "| MUXF7    |  2027 |                 CLB |";
  "| FDSE     |  1786 |            Register |";
  "| CARRY8   |  1693 |                 CLB |";
  "| MUXF8    |   795 |                 CLB |";
  "| RAMB18E2 |   464 |           Block Ram |";
  "| SRL16E   |   352 |                 CLB |";
  "| RAMB36E2 |   348 |           Block Ram |";
  "| OBUF     |   207 |                 I/O |";
  "| DSP48E2  |    79 |          Arithmetic |";
  "| BUFGCE   |     1 |               Clock |";
  "+----------+-------+---------------------+";
  "";
  "";
  "9. Black Boxes";
  "--------------";
  "";
  "+----------+------+";
  "| Ref Name | Used |";
  "+----------+------+";
  "";
  "";
  "10. Instantiated Netlists";
  "-------------------------";
  "";
  "+----------+------+";
  "| Ref Name | Used |";
  "+----------+------+";
  "";
  "";
  "11. SLR Connectivity";
  "--------------------";
  "";
  "+----------------------------------+------+-------+-----------+-------+";
  "|                                  | Used | Fixed | Available | Util% |";
  "+----------------------------------+------+-------+-----------+-------+";
  "| SLR3 <-> SLR2                    |    0 |       |     23040 |  0.00 |";
  "|   SLR2 -> SLR3                   |    0 |       |           |  0.00 |";
  "|     Using TX_REG only            |    0 |     0 |           |       |";
  "|     Using RX_REG only            |    0 |     0 |           |       |";
  "|     Using Both TX_REG and RX_REG |    0 |     0 |           |       |";
  "|   SLR3 -> SLR2                   |    0 |       |           |  0.00 |";
  "|     Using TX_REG only            |    0 |     0 |           |       |";
  "|     Using RX_REG only            |    0 |     0 |           |       |";
  "|     Using Both TX_REG and RX_REG |    0 |     0 |           |       |";
  "| SLR2 <-> SLR1                    |    0 |       |     23040 |  0.00 |";
  "|   SLR1 -> SLR2                   |    0 |       |           |  0.00 |";
  "|     Using TX_REG only            |    0 |     0 |           |       |";
  "|     Using RX_REG only            |    0 |     0 |           |       |";
  "|     Using Both TX_REG and RX_REG |    0 |     0 |           |       |";
  "|   SLR2 -> SLR1                   |    0 |       |           |  0.00 |";
  "|     Using TX_REG only            |    0 |     0 |           |       |";
  "|     Using RX_REG only            |    0 |     0 |           |       |";
  "|     Using Both TX_REG and RX_REG |    0 |     0 |           |       |";
  "| SLR1 <-> SLR0                    |    0 |       |     23040 |  0.00 |";
  "|   SLR0 -> SLR1                   |    0 |       |           |  0.00 |";
  "|     Using TX_REG only            |    0 |     0 |           |       |";
  "|     Using RX_REG only            |    0 |     0 |           |       |";
  "|     Using Both TX_REG and RX_REG |    0 |     0 |           |       |";
  "|   SLR1 -> SLR0                   |    0 |       |           |  0.00 |";
  "|     Using TX_REG only            |    0 |     0 |           |       |";
  "|     Using RX_REG only            |    0 |     0 |           |       |";
  "|     Using Both TX_REG and RX_REG |    0 |     0 |           |       |";
  "+----------------------------------+------+-------+-----------+-------+";
  "| Total SLLs Used                  |    0 |       |           |       |";
  "+----------------------------------+------+-------+-----------+-------+";
  "";
  "";
  "12. SLR Connectivity Matrix";
  "---------------------------";
  "";
  "+-----------+------+------+------+------+";
  "| FROM \ TO | SLR3 | SLR2 | SLR1 | SLR0 |";
  "+-----------+------+------+------+------+";
  "| SLR3      |    0 |    0 |    0 |    0 |";
  "| SLR2      |    0 |    0 |    0 |    0 |";
  "| SLR1      |    0 |    0 |    0 |    0 |";
  "| SLR0      |    0 |    0 |    0 |    0 |";
  "+-----------+------+------+------+------+";
  "";
  "";
  "13. SLR CLB Logic and Dedicated Block Utilization";
  "-------------------------------------------------";
  "";
  "+----------------------------+------+------+------+------+--------+--------+--------+--------+";
  "|          Site Type         | SLR0 | SLR1 | SLR2 | SLR3 | SLR0 % | SLR1 % | SLR2 % | SLR3 % |";
  "+----------------------------+------+------+------+------+--------+--------+--------+--------+";
  "| CLB                        |    0 |    0 |    0 |    0 |   0.00 |   0.00 |   0.00 |   0.00 |";
  "|   CLBL                     |    0 |    0 |    0 |    0 |   0.00 |   0.00 |   0.00 |   0.00 |";
  "|   CLBM                     |    0 |    0 |    0 |    0 |   0.00 |   0.00 |   0.00 |   0.00 |";
  "| CLB LUTs                   |    0 |    0 |    0 |    0 |   0.00 |   0.00 |   0.00 |   0.00 |";
  "|   LUT as Logic             |    0 |    0 |    0 |    0 |   0.00 |   0.00 |   0.00 |   0.00 |";
  "|   LUT as Memory            |    0 |    0 |    0 |    0 |   0.00 |   0.00 |   0.00 |   0.00 |";
  "|     LUT as Distributed RAM |    0 |    0 |    0 |    0 |   0.00 |   0.00 |   0.00 |   0.00 |";
  "|     LUT as Shift Register  |    0 |    0 |    0 |    0 |   0.00 |   0.00 |   0.00 |   0.00 |";
  "| CLB Registers              |    0 |    0 |    0 |    0 |   0.00 |   0.00 |   0.00 |   0.00 |";
  "| CARRY8                     |    0 |    0 |    0 |    0 |   0.00 |   0.00 |   0.00 |   0.00 |";
  "| F7 Muxes                   |    0 |    0 |    0 |    0 |   0.00 |   0.00 |   0.00 |   0.00 |";
  "| F8 Muxes                   |    0 |    0 |    0 |    0 |   0.00 |   0.00 |   0.00 |   0.00 |";
  "| F9 Muxes                   |    0 |    0 |    0 |    0 |   0.00 |   0.00 |   0.00 |   0.00 |";
  "| Block RAM Tile             |    0 |    0 |    0 |    0 |   0.00 |   0.00 |   0.00 |   0.00 |";
  "|   RAMB36/FIFO              |    0 |    0 |    0 |    0 |   0.00 |   0.00 |   0.00 |   0.00 |";
  "|   RAMB18                   |    0 |    0 |    0 |    0 |   0.00 |   0.00 |   0.00 |   0.00 |";
  "| URAM                       |    0 |    0 |    0 |    0 |   0.00 |   0.00 |   0.00 |   0.00 |";
  "| DSPs                       |    0 |    0 |    0 |    0 |   0.00 |   0.00 |   0.00 |   0.00 |";
  "| PLL                        |    0 |    0 |    0 |    0 |   0.00 |   0.00 |   0.00 |   0.00 |";
  "| MMCM                       |    0 |    0 |    0 |    0 |   0.00 |   0.00 |   0.00 |   0.00 |";
  "| Unique Control Sets        |    0 |    0 |    0 |    0 |   0.00 |   0.00 |   0.00 |   0.00 |";
  "+----------------------------+------+------+------+------+--------+--------+--------+--------+";
  "* Note: Available Control Sets based on CLB Registers / 8";
  "";
  "";
  "14. SLR IO Utilization";
  "----------------------";
  "";
  "+-----------+-----------+---------+------------+----------+------------+----------+-----+";
  "| SLR Index | Used IOBs | (%)IOBs | Used IPADs | (%)IPADs | Used OPADs | (%)OPADs | GTs |";
  "+-----------+-----------+---------+------------+----------+------------+----------+-----+";
  "| SLR3      |         0 |    0.00 |          0 |     0.00 |          0 |     0.00 |   0 |";
  "| SLR2      |         0 |    0.00 |          0 |     0.00 |          0 |     0.00 |   0 |";
  "| SLR1      |         0 |    0.00 |          0 |     0.00 |          0 |     0.00 |   0 |";
  "| SLR0      |         0 |    0.00 |          0 |     0.00 |          0 |     0.00 |   0 |";
  "+-----------+-----------+---------+------------+----------+------------+----------+-----+";
  "| Total     |         0 |         |          0 |          |          0 |          |   0 |";
  "+-----------+-----------+---------+------------+----------+------------+----------+-----+";
  ""
].

(** *** Reading the layout

    The report is fixed-width text: a heading is a line underlined by
    dashes of its own length, a table row is a line that starts with a bar,
    and its cells are the trimmed fields between the bars. *)

Definition is_space (c : ascii) : bool := Ascii.eqb c " ".

Fixpoint ltrim (s : string) : string :=
  match s with
  | String c s' => if is_space c then ltrim s' else s
  | EmptyString => EmptyString
  end.

Fixpoint rtrim (s : string) : string :=
  match s with
  | String c s' =>
      match rtrim s' with
      | EmptyString => if is_space c then EmptyString else String c EmptyString
      | t => String c t
      end
  | EmptyString => EmptyString
  end.

Definition trim (s : string) : string := rtrim (ltrim s).

(** Fields of [s] between occurrences of [sep] (at least one field). *)
Fixpoint split_on (sep : ascii) (s : string) : list string :=
  match s with
  | EmptyString => [EmptyString]
  | String c s' =>
      match split_on sep s' with
      | f :: fs => if Ascii.eqb c sep then EmptyString :: f :: fs
                   else String c f :: fs
      | [] => [String c EmptyString]
      end
  end.

Fixpoint all_dashes (s : string) : bool :=
  match s with
  | EmptyString => true
  | String c s' => Ascii.eqb c "-" && all_dashes s'
  end.

(** [u] underlines the heading [t]. *)
Definition underlines (u t : string) : bool :=
  negb (String.eqb t "") && all_dashes u
  && (String.length u =? String.length t)%nat.

(** Lines before the first heading, and each heading with the lines up to
    the next heading. *)
Fixpoint split_sections (lines : list string)
  : list string * list (string * list string) :=
  match lines with
  | [] => ([], [])
  | l :: tl =>
      let (pre, secs) := split_sections tl in
      match pre with
      | u :: body =>
          if underlines u l then ([], (l, body) :: secs)
          else (l :: pre, secs)
      | [] => ([l], secs)
      end
  end.

Definition is_row (s : string) : bool := prefix "|" s.

(** Cells of a table row: the first and last field around the outer bars
    are dropped. *)
Definition cells (s : string) : list string :=
  map trim (removelast (tl (split_on "|" s))).

Record report_section : Type := ReportSection {
  title : string;
  columns : list string;
  rows : list (list string);
  notes : list string
}.

Definition section_of (hb : string * list string) : report_section :=
  let table := map cells (filter is_row (snd hb)) in
  ReportSection (fst hb) (hd [] table) (tl table)
           (filter (fun l => negb (is_row l || prefix "+" l
                                   || String.eqb l "")) (snd hb)).

Definition sections (lines : list string) : list report_section :=
  map section_of (snd (split_sections lines)).

(** A non-negative integer cell; [None] for a blank or malformed cell. *)
Definition parse_nat (s : string) : option Z :=
  match s with
  | EmptyString => None
  | _ => option_map (fun u => Z.of_N (N.of_uint u)) (NilEmpty.uint_of_string s)
  end.

(** A cell [ddd.dd] as an exact rational. *)
Definition parse_decimal (s : string) : option Q :=
  match split_on "." s with
  | [i; f] =>
      match parse_nat i, parse_nat f with
      | Some zi, Some zf =>
          let scale := Pos.pow 10 (Pos.of_nat (String.length f)) in
          Some ((zi * Zpos scale + zf) # scale)
      | _, _ => None
      end
  | _ => None
  end.

Record figures : Type := Figures {
  used : option Z;
  fixed : option Z;
  available : option Z;
  util : option Q
}.

(** Position of a column by name. *)
Fixpoint index_of (c : string) (cols : list string) : option nat :=
  match cols with
  | [] => None
  | x :: xs => if String.eqb x c then Some 0%nat
               else option_map S (index_of c xs)
  end.

Definition cell_at (cols row : list string) (c : string) : string :=
  match index_of c cols with
  | Some i => nth i row ""
  | None => ""
  end.

(** A section carries utilization figures when its table has the four
    columns. *)
Definition has_util_columns (s : report_section) : bool :=
  forallb (fun c => existsb (String.eqb c) (columns s))
          ["Used"; "Fixed"; "Available"; "Util%"].

Definition row_figures (cols row : list string) : string * figures :=
  (hd "" row,
   Figures (parse_nat (cell_at cols row "Used"))
           (parse_nat (cell_at cols row "Fixed"))
           (parse_nat (cell_at cols row "Available"))
           (parse_decimal (cell_at cols row "Util%"))).

(** Modelled from the spec: the report parser ([hls4ml.report]) is a
    library function outside the repository.  The spec gives its result as
    a mapping from resource category to used/available/percentage figures
    read from the sections that list rows under Used/Fixed/Available/Util%
    columns; this is that mapping, in report order. *)
Definition utilization (lines : list string) : list (string * figures) :=
  flat_map (fun s => if has_util_columns s
                     then map (row_figures (columns s)) (rows s)
                     else [])
           (sections lines).

Fixpoint assoc (k : string) (l : list (string * figures)) : option figures :=
  match l with
  | [] => None
  | (k', v) :: rest => if String.eqb k' k then Some v else assoc k rest
  end.

(** Entries of the table of contents: its non-blank lines. *)
Definition table_of_contents (lines : list string) : list string :=
  flat_map (fun s => if String.eqb (title s) "Table of Contents"
                     then notes s else [])
           (sections lines).

(** Titles of the sections after the table of contents. *)
Definition section_titles (lines : list string) : list string :=
  filter (fun t => negb (String.eqb t "Table of Contents"))
         (map title (sections lines)).

(** The numbered sections: all but the table of contents. *)
Definition body_sections (lines : list string) : list report_section :=
  filter (fun s => negb (String.eqb (title s) "Table of Contents"))
         (sections lines).

(** Every numbered section has the four utilization columns, in the
    specification's words. *)
Definition every_section_has_util_columns (lines : list string) : Prop :=
  Forall (fun s => has_util_columns s = true) (body_sections lines).

(** *** Writing figures back, to compare with the cells they came from *)

Definition render_nat (z : Z) : string :=
  NilZero.string_of_uint (N.to_uint (Z.to_N z)).

Fixpoint zeros (n : nat) : string :=
  match n with
  | O => ""
  | S n' => String "0" (zeros n')
  end.

(** A rational [n / 10^k] with [k] digits after the point. *)
Definition render_decimal (q : Q) : string :=
  let d := Zpos (Qden q) in
  let k := (String.length (render_nat d) - 1)%nat in
  let f := render_nat (Qnum q mod d) in
  render_nat (Qnum q / d) ++ "." ++ zeros (k - String.length f) ++ f.

Definition render_opt {A} (r : A -> string) (o : option A) : string :=
  match o with
  | Some a => r a
  | None => ""
  end.

(** The figures read from a row write back to exactly the row's cells. *)
Definition row_exact (cols row : list string) : bool :=
  let f := snd (row_figures cols row) in
  String.eqb (render_opt render_nat (used f)) (cell_at cols row "Used")
  && String.eqb (render_opt render_nat (fixed f)) (cell_at cols row "Fixed")
  && String.eqb (render_opt render_nat (available f))
                (cell_at cols row "Available")
  && String.eqb (render_opt render_decimal (util f))
                (cell_at cols row "Util%").

Definition report_exact (lines : list string) : bool :=
  forallb (fun s => negb (has_util_columns s)
                    || forallb (row_exact (columns s)) (rows s))
          (sections lines).

End Report.

(* ================================================================== *)
(** ** Override sequences *)

(** One statement [cfg[p1]...[pn][k] = v], as data. *)
Record override : Type := Override {
  o_path : list string;
  o_key : string;
  o_value : pyval
}.

(** The address an override writes to. *)
Definition addr (o : override) : list string := (o_path o ++ [o_key o])%list.

(** Statements run in order on the dictionary; the first exception stops
    the sequence and earlier stores stay. *)
Fixpoint run_overrides (ovs : list override) (c : pyval)
  : pyval * option pyexc :=
  match ovs with
  | [] => (c, None)
  | o :: rest =>
      match store_subscr c (o_path o) (o_key o) (o_value o) with
      | Ok c' => run_overrides rest c'
      | Raise e => (c, Some e)
      end
  end.

Definition outcome (e : option pyexc) : result unit :=
  match e with
  | None => Ok tt
  | Some x => Raise x
  end.

Fixpoint is_prefix (a b : list string) : bool :=
  match a, b with
  | [], _ => true
  | x :: a', y :: b' => String.eqb x y && is_prefix a' b'
  | _ :: _, [] => false
  end.

(** Two addresses overlap when one is the other or lies inside it. *)
Definition overlap (a b : list string) : bool :=
  is_prefix a b || is_prefix b a.

(** The sequence as the specification lists it: the "Model" scope with
    precision, reuse factor and strategy, then the reuse factor of q_dense,
    the strategy of q_dense_1 and the strategy of activation_2. *)
Definition spec_override_sequence : list override :=
  [ Override [] "Model"
      (VDict [(KStr "Precision", VStr "ap_fixed<16,6>");
              (KStr "ReuseFactor", VInt 1);
              (KStr "Strategy", VStr "Resource")]);
    Override ["LayerName"; "q_dense"] "ReuseFactor" (VInt 112);
    Override ["LayerName"; "q_dense_1"] "Strategy" (VStr "Latency");
    Override ["LayerName"; "activation_2"] "Strategy" (VStr "Stable") ].

(** *** The specification's flat view: settings per (scope, key) *)

(** Where the dictionary keeps a scope: "Model" at the top, a layer under
    "LayerName". *)
Definition scope_path (scope : string) : list string :=
  if String.eqb scope "Model" then ["Model"] else ["LayerName"; scope].

Definition entry (c : pyval) (scope key : string) : option pyval :=
  lookup c (scope_path scope ++ [key])%list.

Record setting : Type := Setting {
  s_scope : string;
  s_key : string;
  s_value : pyval
}.

(** The six settings the specification's sequence touches. *)
Definition spec_settings : list setting :=
  [ Setting "Model" "Precision" (VStr "ap_fixed<16,6>");
    Setting "Model" "ReuseFactor" (VInt 1);
    Setting "Model" "Strategy" (VStr "Resource");
    Setting "q_dense" "ReuseFactor" (VInt 112);
    Setting "q_dense_1" "Strategy" (VStr "Latency");
    Setting "activation_2" "Strategy" (VStr "Stable") ].

(** Value of the last setting of a sequence that touches (scope, key). *)
Fixpoint last_setting (scope key : string) (l : list setting)
  : option pyval :=
  match l with
  | [] => None
  | s :: rest =>
      match last_setting scope key rest with
      | Some v => Some v
      | None =>
          if String.eqb (s_scope s) scope && String.eqb (s_key s) key
          then Some (s_value s) else None
      end
  end.

(** Last-write-wins per (scope, key) pair with untouched entries as in the
    baseline, in the specification's words. *)
Definition last_write_wins (l : list setting) (base merged : pyval) : Prop :=
  forall scope key,
    entry merged scope key =
    match last_setting scope key l with
    | Some v => Some v
    | None => entry base scope key
    end.

(** An absent target is reported and nothing is stored, in the
    specification's words, for one override on a dictionary. *)
Definition absent_target_rejected (o : override) (base : pyval) : Prop :=
  lookup base (addr o) = None ->
  exists e, run_overrides [o] base = (base, Some e).

(** *** Example dictionaries *)

Definition layer_cfg (weight : string) : pyval :=
  VDict [(KStr "Precision", VDict [(KStr "weight", VStr weight);
                                   (KStr "bias", VStr weight)]);
         (KStr "ReuseFactor", VInt 1)].

Definition activation_cfg : pyval :=
  VDict [(KStr "Precision", VStr "ap_fixed<16,6>");
         (KStr "ReuseFactor", VInt 1);
         (KStr "table_size", VInt 1024)].

Definition sample_layers : pyval :=
  VDict [(KStr "q_dense", layer_cfg "ap_fixed<6,1>");
         (KStr "q_dense_1", layer_cfg "ap_fixed<6,1>");
         (KStr "activation_2", activation_cfg)].

(** A configuration with the three settings in "Model" and per-layer
    precision and reuse factor. *)
Definition sample_cfg : pyval :=
  VDict [(KStr "Model", VDict [(KStr "Precision", VStr "ap_fixed<16,6>");
                               (KStr "ReuseFactor", VInt 1);
                               (KStr "Strategy", VStr "Latency")]);
         (KStr "LayerName", sample_layers)].

(** A configuration in which every target of the sequence exists, with one
    more setting in the "Model" scope. *)
Definition explicit_layer : pyval :=
  VDict [(KStr "Precision", VStr "ap_fixed<6,1>");
         (KStr "ReuseFactor", VInt 1);
         (KStr "Strategy", VStr "Resource")].

Definition explicit_cfg : pyval :=
  VDict [(KStr "Model", VDict [(KStr "Precision", VStr "ap_fixed<16,6>");
                               (KStr "ReuseFactor", VInt 1);
                               (KStr "Strategy", VStr "Latency");
                               (KStr "BramFactor", VInt 1000000000)]);
         (KStr "LayerName",
          VDict [(KStr "q_dense", explicit_layer);
                 (KStr "q_dense_1", explicit_layer);
                 (KStr "activation_2", explicit_layer)])].

(* ================================================================== *)
(** ** Shape of a dictionary, for [print_dict] *)







(** Induction on values with the nested dictionaries as hypotheses. *)
Section PyvalInduction.

Variable P : pyval -> Prop.
Hypothesis HNone : P VNone.
Hypothesis HBool : forall b, P (VBool b).
Hypothesis HInt : forall z, P (VInt z).
Hypothesis HStr : forall s, P (VStr s).
Hypothesis HDict : forall d, Forall (fun kv => P (snd kv)) d -> P (VDict d).

Fixpoint pyval_nested_ind (v : pyval) : P v :=
  match v with
  | VNone => HNone
  | VBool b => HBool b
  | VInt z => HInt z
  | VStr s => HStr s
  | VDict d =>
      HDict d
        ((fix go (l : pydict) : Forall (fun kv => P (snd kv)) l :=
            match l with
            | [] => Forall_nil _
            | kv :: rest => Forall_cons kv (pyval_nested_ind (snd kv)) (go rest)
            end) d)
  end.

End PyvalInduction.

(* ================================================================== *)
(** ** A stand-in for the external libraries

    Used to run the notebook on concrete inputs.  [argmax_axis1] returns the
    first index of each row's maximum, [accuracy] the fraction of positions
    where two label vectors agree. *)

Module Mock.

Fixpoint argmax_from (best : Q) (besti i : Z) (r : list Q) : Z :=
  match r with
  | [] => besti
  | x :: r' =>
      if Qle_bool x best then argmax_from best besti (i + 1) r'
      else argmax_from x i (i + 1) r'
  end.

Definition argmax_row (r : list Q) : result Z :=
  match r with
  | [] => Raise ValueError
  | x :: r' => Ok (argmax_from x 0 1 r')
  end.

Fixpoint argmax_axis1 (m : matrix) : result (list Z) :=
  match m with
  | [] => Ok []
  | r :: m' =>
      rbind (argmax_row r) (fun i =>
      rbind (argmax_axis1 m') (fun js => Ok (i :: js)))
  end.

Fixpoint agreements (t p : list Z) : Z :=
  match t, p with
  | x :: t', y :: p' => (if x =? y then 1 else 0) + agreements t' p'
  | _, _ => 0
  end.

Definition accuracy (t p : list Z) : result Q :=
  if ((List.length t =? List.length p)%nat && (0 <? List.length t)%nat)%bool
  then Ok (agreements t p # Pos.of_nat (List.length t))
  else Raise ValueError.

(** Class probabilities with the mass on column [hot]. *)
Definition probs (hot : nat) : list Q :=
  map (fun j => if (j =? hot)%nat then 9 # 10 else 1 # 90) (seq 0 10).

(** One training image and two test images of two rows of two pixels. *)
Definition data : dataset :=
  (([ [[x00; xff]; [x80; x01]] ], [x03]),
   ([ [[x10; x20]; [x30; x40]]; [[xff; xfe]; [x00; x7f]] ], [x01; x00])).

(** The emulation gets the second test sample wrong, the model does not. *)
Definition backend : External unit unit unit := {|
  recursion_headroom := 900;
  add_supported_quantized_objects := Ok tt;
  load_model := fun _ _ => Ok tt;
  config_from_keras_model := fun _ _ => Ok sample_cfg;
  convert_from_keras_model := fun _ _ _ _ _ => Ok tt;
  compile := fun _ => Ok tt;
  mnist_load_data := Ok data;
  hls_predict := fun _ _ => Ok [probs 1; probs 1];
  model_predict := fun _ _ => Ok [probs 1; probs 0];
  np_argmax_axis1 := argmax_axis1;
  accuracy_score := accuracy;
  build := fun _ _ _ _ _ => Ok tt;
  get_output_dir := fun _ => Ok "section2_hls4ml_prj";
  read_vivado_report := fun _ => Ok tt
|}.

(** The library's defaults for the optimizer's attributes. *)
Definition attrs0 : optimizer_attrs := OptimizerAttrs [] None None.

End Mock.

(* ================================================================== *)
(** ** Statements about runs: triples and events *)

Section Triples.

Context {Model Hls Registry : Type}.
Local Abbreviation G := (globals Model Hls Registry).
Local Abbreviation prog := (NB Model Hls Registry).

(** From a state in [P], the program ends in a state and outcome in [Q]. *)
Definition triple {A} (P : G -> Prop) (m : prog A)
           (Q : G -> result A -> Prop) : Prop :=
  forall g, P g -> Q (fst (m g)) (snd (m g)).

(** [I] holds after the program, however it ends, when it held before. *)
Definition preserves {A} (I : G -> Prop) (m : prog A) : Prop :=
  triple I m (fun g _ => I g).

(** Every event so far satisfies [P]. *)
Definition all_events (P : event Model Hls Registry -> Prop) (g : G) : Prop :=
  Forall P (g_log g).

(** The attributes after the three assignments of the overrides cell. *)
Definition rounding_saturation : optimizer_attrs :=
  OptimizerAttrs ["Activation"] (Some "AP_RND") (Some "AP_SAT").

Definition not_convert (e : event Model Hls Registry) : Prop :=
  match e with
  | CallConvert _ _ _ _ _ => False
  | _ => True
  end.

(** A conversion sees the rounding and saturation attributes. *)
Definition convert_sees_rounding (e : event Model Hls Registry) : Prop :=
  match e with
  | CallConvert _ _ _ _ attrs => attrs = rounding_saturation
  | _ => True
  end.

(** The attributes are set, and every conversion so far has seen them. *)
Definition converted (g : G) : Prop :=
  g_orsm g = rounding_saturation /\ all_events convert_sees_rounding g.

(** A build has the flags of the notebook. *)
Definition build_flags (e : event Model Hls Registry) : Prop :=
  match e with
  | CallBuild _ csim synth vsynth export =>
      csim = false /\ synth = true /\ vsynth = true /\ export = false
  | _ => True
  end.

End Triples.

(* ================================================================== *)
(** ** Further shapes of dictionaries, sequences and runs *)

(** The keys of a dict in iteration order; no keys for another value. *)
Definition keys (v : pyval) : list pykey :=
  match v with
  | VDict d => map fst d
  | _ => []
  end.

(** [a] addresses a dict. *)
Definition dict_at (c : pyval) (a : list string) : bool :=
  match lookup c a with
  | Some (VDict _) => true
  | _ => false
  end.

Definition has_key (d : pydict) (k : pykey) : bool :=
  match dict_get d k with
  | Some _ => true
  | None => false
  end.

(** No key occurs twice in a dict, at any depth: what a Python dict is. *)
Fixpoint unique_keys (v : pyval) : bool :=
  match v with
  | VDict items =>
      (fix go (l : pydict) : bool :=
         match l with
         | [] => true
         | (k, value) :: rest =>
             negb (has_key rest k) && unique_keys value && go rest
         end) items
  | _ => true
  end.


Definition is_dict (v : pyval) : bool :=
  match v with
  | VDict _ => true
  | _ => false
  end.

(** No override writes to, into or around the scope a later one stores
    into. *)
Fixpoint paths_independent (ovs : list override) : bool :=
  match ovs with
  | [] => true
  | o :: rest =>
      forallb (fun o2 => negb (overlap (addr o) (o_path o2))) rest
      && paths_independent rest
  end.

(** No two overrides have overlapping addresses. *)
Fixpoint addresses_independent (ovs : list override) : bool :=
  match ovs with
  | [] => true
  | o :: rest =>
      forallb (fun o2 => negb (overlap (addr o2) (addr o))) rest
      && addresses_independent rest
  end.

(** All images have [h] rows of [w] pixels. *)
Definition rectangular (h w : nat) (x : list image) : Prop :=
  Forall (fun img => List.length img = h
                     /\ Forall (fun row => List.length row = w) img) x.

Section CallOrder.

Context {Model Hls Registry : Type}.

(** The library function an event is a call of. *)
Definition call_name (e : event Model Hls Registry) : option string :=
  match e with
  | Stdout _ | StdoutFmt _ _ => None
  | CallAddQuantized => Some "_add_supported_quantized_objects"
  | CallLoadModel _ _ => Some "load_model"
  | CallConfigFromKeras _ _ => Some "config_from_keras_model"
  | CallConvert _ _ _ _ _ => Some "convert_from_keras_model"
  | CallCompile _ => Some "compile"
  | CallMnistLoad => Some "mnist.load_data"
  | CallPredictHls _ _ => Some "hls_model.predict"
  | CallPredictModel _ _ => Some "model.predict"
  | CallBuild _ _ _ _ _ => Some "build"
  | CallReadReport _ => Some "read_vivado_report"
  end.




End CallOrder.


(* ================================================================== *)
(** * Properties *)

(** ** Dictionaries *)

Lemma key_eqb_eq (a b : pykey) : key_eqb a b = true <-> a = b.
Proof.
  destruct a, b; simpl; split; intros H; try discriminate.
  - apply String.eqb_eq in H. now subst.
  - inversion H. apply String.eqb_refl.
  - apply Z.eqb_eq in H. now subst.
  - inversion H. apply Z.eqb_refl.
Qed.

Lemma key_eqb_refl (a : pykey) : key_eqb a a = true.
Proof. now apply key_eqb_eq. Qed.

Lemma key_eqb_trans_false (a b c : pykey) :
  key_eqb a b = true -> key_eqb b c = false -> key_eqb a c = false.
Proof.
  intros H1 H2. apply key_eqb_eq in H1. now subst.
Qed.

Lemma dict_get_set_same (d : pydict) (k : pykey) (v : pyval) :
  dict_get (dict_set d k v) k = Some v.
Proof.
  induction d as [|[k' v'] d IH]; simpl.
  - now rewrite key_eqb_refl.
  - destruct (key_eqb k' k) eqn:Hk; simpl; now rewrite Hk.
Qed.

Lemma dict_get_set_other (d : pydict) (k k' : pykey) (v : pyval) :
  key_eqb k k' = false ->
  dict_get (dict_set d k v) k' = dict_get d k'.
Proof.
  intros Hne. induction d as [|[k0 v0] d IH]; simpl.
  - now rewrite Hne.
  - destruct (key_eqb k0 k) eqn:Hk; simpl.
    + now rewrite (key_eqb_trans_false _ _ _ Hk Hne).
    + now rewrite IH.
Qed.

(** A subscription that succeeds was made on a dict. *)
Lemma getitem_ok (root : pyval) (k : string) (v : pyval) :
  getitem root k = Ok v ->
  exists d, root = VDict d /\ dict_get d (KStr k) = Some v.
Proof.
  destruct root; simpl; try discriminate.
  destruct (dict_get d (KStr k)) eqn:H; try discriminate.
  intros E. inversion E. subst. eauto.
Qed.

Lemma setitem_ok (root : pyval) (k : string) (v root' : pyval) :
  setitem root k v = Ok root' ->
  exists d, root = VDict d /\ root' = VDict (dict_set d (KStr k) v).
Proof.
  destruct root; simpl; try discriminate.
  intros E. inversion E. eauto.
Qed.

(** What a successful store along a non-empty path did. *)
Lemma store_subscr_cons_ok (root : pyval) (p : string) (ps : list string)
      (k : string) (v root' : pyval) :
  store_subscr root (p :: ps) k v = Ok root' ->
  exists d sub sub',
    root = VDict d /\ dict_get d (KStr p) = Some sub /\
    store_subscr sub ps k v = Ok sub' /\
    root' = VDict (dict_set d (KStr p) sub').
Proof.
  simpl. destruct (getitem root p) as [sub|] eqn:Hg; simpl; try discriminate.
  destruct (store_subscr sub ps k v) as [sub'|] eqn:Hs; simpl;
    try discriminate.
  intros Hset. apply getitem_ok in Hg as (d & -> & Hd).
  simpl in Hset. inversion Hset. exists d, sub, sub'. auto.
Qed.

Lemma lookup_app (root : pyval) (a b : list string) :
  lookup root (a ++ b) =
  match lookup root a with
  | Some v => lookup v b
  | None => None
  end.
Proof.
  revert root. induction a as [|x a IH]; intros root; simpl; auto.
  destruct (getitem root x); auto.
Qed.

(** The address just written holds the written value. *)
Lemma lookup_store_same (path : list string) :
  forall root k v root',
    store_subscr root path k v = Ok root' ->
    lookup root' (path ++ [k]) = Some v.
Proof.
  induction path as [|p ps IH]; intros root k v root' H.
  - apply setitem_ok in H as (d & -> & ->). simpl.
    now rewrite dict_get_set_same.
  - apply store_subscr_cons_ok in H as (d & sub & sub' & -> & Hd & Hs & ->).
    simpl. rewrite dict_get_set_same. now apply IH with (root := sub).
Qed.

Lemma str_key_neq (x y : string) :
  String.eqb x y = false -> key_eqb (KStr x) (KStr y) = false.
Proof. auto. Qed.

(** An address that does not overlap the written one reads as before. *)
Lemma lookup_store_other (path : list string) :
  forall root k v root' a,
    store_subscr root path k v = Ok root' ->
    overlap (path ++ [k]) a = false ->
    lookup root' a = lookup root a.
Proof.
  unfold overlap.
  induction path as [|p ps IH]; intros root k v root' a H Hov.
  - apply setitem_ok in H as (d & -> & ->).
    destruct a as [|x a]; simpl in Hov.
    + discriminate.
    + destruct (String.eqb k x) eqn:Hk.
      * simpl in Hov. destruct a; simpl in Hov; discriminate.
      * simpl. now rewrite dict_get_set_other.
  - apply store_subscr_cons_ok in H as (d & sub & sub' & -> & Hd & Hs & ->).
    destruct a as [|x a]; simpl in Hov.
    + discriminate.
    + destruct (String.eqb p x) eqn:Hp.
      * apply String.eqb_eq in Hp. subst x. simpl.
        rewrite dict_get_set_same, Hd.
        apply IH with (k := k) (v := v); auto.
        rewrite String.eqb_refl in Hov. exact Hov.
      * simpl. now rewrite dict_get_set_other.
Qed.

(** A store through a scope that is missing raises [KeyError] for the
    first missing subscript. *)
Lemma store_subscr_missing_scope (pre : list string) :
  forall root d p post k v,
    lookup root pre = Some (VDict d) ->
    dict_get d (KStr p) = None ->
    store_subscr root (pre ++ p :: post) k v = Raise (KeyError (KStr p)).
Proof.
  induction pre as [|q pre IH]; intros root d p post k v Hl Hd; simpl in *.
  - inversion Hl. subst. simpl. now rewrite Hd.
  - destruct (getitem root q) as [sub|] eqn:Hg; try discriminate.
    simpl. now rewrite (IH sub d p post k v Hl Hd).
Qed.

(** A store into a scope that exists succeeds, whatever the key. *)
Lemma store_subscr_existing_scope (path : list string) :
  forall root d k v,
    lookup root path = Some (VDict d) ->
    exists root', store_subscr root path k v = Ok root'.
Proof.
  induction path as [|q path IH]; intros root d k v Hl; simpl in *.
  - inversion Hl. subst. simpl. eauto.
  - destruct (getitem root q) as [sub|] eqn:Hg; try discriminate.
    destruct (IH sub d k v Hl) as [sub' Hs].
    apply getitem_ok in Hg as (d0 & -> & Hd0).
    simpl. rewrite Hs. simpl. eauto.
Qed.

(** ** Sequences of overrides *)

Lemma overlap_sym (a b : list string) : overlap a b = overlap b a.
Proof. unfold overlap. apply orb_comm. Qed.

(** Addresses that no override of the sequence overlaps read the same
    before and after a run without exception. *)
Lemma run_overrides_untouched (ovs : list override) :
  forall base merged a,
    run_overrides ovs base = (merged, None) ->
    (forall o, In o ovs -> overlap (addr o) a = false) ->
    lookup merged a = lookup base a.
Proof.
  induction ovs as [|o ovs IH]; intros base merged a Hrun Hno; simpl in Hrun.
  - now inversion Hrun.
  - destruct (store_subscr base (o_path o) (o_key o) (o_value o))
      as [c'|] eqn:Hs; try discriminate.
    rewrite (IH c' merged a Hrun) by (intros; apply Hno; now right).
    apply lookup_store_other with (1 := Hs). apply Hno. now left.
Qed.

Lemma run_overrides_app (pre post : list override) (base : pyval) :
  run_overrides (pre ++ post) base =
  match run_overrides pre base with
  | (mid, None) => run_overrides post mid
  | (mid, Some e) => (mid, Some e)
  end.
Proof.
  revert base. induction pre as [|o pre IH]; intros base; simpl; auto.
  destruct (store_subscr base (o_path o) (o_key o) (o_value o)); auto.
Qed.

Lemma run_overrides_split (pre post : list override) (base merged : pyval) :
  run_overrides (pre ++ post) base = (merged, None) ->
  exists mid, run_overrides pre base = (mid, None)
              /\ run_overrides post mid = (merged, None).
Proof.
  rewrite run_overrides_app.
  destruct (run_overrides pre base) as [mid [e|]]; try discriminate.
  eauto.
Qed.

(** The value of an override survives when nothing after it overlaps its
    address. *)
Lemma run_overrides_last_write (pre post : list override) (o : override)
      (base merged : pyval) :
  run_overrides (pre ++ o :: post) base = (merged, None) ->
  (forall o', In o' post -> overlap (addr o') (addr o) = false) ->
  lookup merged (addr o) = Some (o_value o).
Proof.
  intros Hrun Hlast.
  apply run_overrides_split in Hrun as (mid & _ & Hrun). simpl in Hrun.
  destruct (store_subscr mid (o_path o) (o_key o) (o_value o))
    as [c'|] eqn:Hs; try discriminate.
  rewrite (run_overrides_untouched post c' merged (addr o) Hrun Hlast).
  now apply lookup_store_same with (root := mid).
Qed.

Lemma set_cfg_same {Model Hls Registry : Type}
      (g : globals Model Hls Registry) (c : pyval) :
  g_cfg g = Some c -> set_cfg c g = g.
Proof. destruct g; simpl; intros ->; reflexivity. Qed.

Lemma set_cfg_twice {Model Hls Registry : Type}
      (g : globals Model Hls Registry) (c c' : pyval) :
  set_cfg c' (set_cfg c g) = set_cfg c' g.
Proof. reflexivity. Qed.

(** One assignment on [cfg], in terms of the store on the dictionary. *)
Lemma assign_cfg_run {Model Hls Registry : Type}
      (g : globals Model Hls Registry) (base : pyval)
      (path : list string) (k : string) (v : pyval) :
  g_cfg g = Some base ->
  assign_cfg path k v g =
  match store_subscr base path k v with
  | Ok c' => (set_cfg c' g, Ok tt)
  | Raise e => (g, Raise e)
  end.
Proof.
  intros Hc. unfold assign_cfg, bind, name, lift, modify. rewrite Hc.
  destruct (store_subscr base path k v); reflexivity.
Qed.

(** ** The configuration overrides *)

(** C1, as the code has it.  An assignment [cfg[p1]...[pn][k] = v] whose
    chain of scopes [p1 ... pn] breaks at a subscript missing from the
    dictionary raises Python's [KeyError] for that subscript and leaves all
    globals, the dictionary included, as they were.  An assignment into a
    scope that exists, to a key [k] the scope does not have, is no error:
    it completes and the key is now present with the assigned value, so
    the dictionary has changed. *)
Theorem absent_scope_raises_absent_key_inserts
        {Model Hls Registry : Type} (g : globals Model Hls Registry)
        (base : pyval) (path : list string) (k : string) (v : pyval) :
  g_cfg g = Some base ->
  (forall pre p post d,
      path = (pre ++ p :: post)%list ->
      lookup base pre = Some (VDict d) ->
      dict_get d (KStr p) = None ->
      assign_cfg path k v g = (g, Raise (KeyError (KStr p))))
  /\
  (forall d,
      lookup base path = Some (VDict d) ->
      dict_get d (KStr k) = None ->
      exists merged,
        assign_cfg path k v g = (set_cfg merged g, Ok tt)
        /\ lookup base (path ++ [k]) = None
        /\ lookup merged (path ++ [k]) = Some v
        /\ merged <> base).
Proof.
  intros Hc. split.
  - intros pre p post d -> Hl Hd.
    rewrite (assign_cfg_run g base _ k v Hc).
    now rewrite (store_subscr_missing_scope pre base d p post k v Hl Hd).
  - intros d Hl Hd.
    destruct (store_subscr_existing_scope path base d k v Hl) as [merged Hs].
    assert (Hbase : lookup base (path ++ [k]) = None).
    { rewrite lookup_app, Hl. simpl. now rewrite Hd. }
    assert (Hmerged : lookup merged (path ++ [k]) = Some v)
      by now apply lookup_store_same with (root := base).
    exists merged. repeat split; auto.
    + rewrite (assign_cfg_run g base _ k v Hc). now rewrite Hs.
    + intros ->. rewrite Hbase in Hmerged. discriminate.
Qed.

(** C1 at a concrete dictionary: a layer that does not exist, and the key
    "Strategy" that the layer q_dense_1 does not have. *)
Lemma absent_scope_raises_absent_key_inserts_witness :
  let g := set_cfg sample_cfg (@fresh unit unit unit Mock.attrs0) in
  assign_cfg ["LayerName"; "q_dense_7"] "Strategy" (VStr "Latency") g
  = (g, Raise (KeyError (KStr "q_dense_7")))
  /\ exists merged,
      assign_cfg ["LayerName"; "q_dense_1"] "Strategy" (VStr "Latency") g
      = (set_cfg merged g, Ok tt)
      /\ lookup sample_cfg ["LayerName"; "q_dense_1"; "Strategy"] = None
      /\ lookup merged ["LayerName"; "q_dense_1"; "Strategy"]
         = Some (VStr "Latency")
      /\ merged <> sample_cfg.
Proof.
  intros g. split.
  - refine (proj1 (absent_scope_raises_absent_key_inserts g sample_cfg
                     ["LayerName"; "q_dense_7"] "Strategy" (VStr "Latency")
                     eq_refl)
                  ["LayerName"] "q_dense_7" [] _ eq_refl eq_refl eq_refl).
  - refine (proj2 (absent_scope_raises_absent_key_inserts g sample_cfg
                     ["LayerName"; "q_dense_1"] "Strategy" (VStr "Latency")
                     eq_refl)
                  _ eq_refl eq_refl).
Defined.

(** C1 as stated fails: on the sample configuration the layer q_dense_1 has
    no "Strategy" key, yet the override of that key raises nothing and
    stores the key. *)
Lemma absent_key_is_not_rejected :
  ~ absent_target_rejected
      (Override ["LayerName"; "q_dense_1"] "Strategy" (VStr "Latency"))
      sample_cfg.
Proof.
  intros H. destruct (H eq_refl) as [e He].
  vm_compute in He. discriminate.
Qed.

(** C2, as the code has it.  For every dictionary and every sequence of
    assignments that runs without exception: an address written by an
    override that no later override overlaps (writes to it, into it or to a
    scope around it) reads as that override's value, and so does everything
    inside the value; an address that no override overlaps reads as in the
    baseline.  An assignment of a whole scope therefore replaces the scope:
    inside it only the keys of the assigned value remain. *)
Theorem overrides_last_write_wins
        (ovs : list override) (base merged : pyval) :
  run_overrides ovs base = (merged, None) ->
  (forall pre o post ext,
      ovs = (pre ++ o :: post)%list ->
      (forall o', In o' post -> overlap (addr o') (addr o) = false) ->
      lookup merged (addr o ++ ext) = lookup (o_value o) ext)
  /\
  (forall a,
      (forall o, In o ovs -> overlap (addr o) a = false) ->
      lookup merged a = lookup base a).
Proof.
  intros Hrun. split.
  - intros pre o post ext -> Hlast.
    rewrite lookup_app.
    now rewrite (run_overrides_last_write pre post o base merged Hrun Hlast).
  - intros a Hno. now apply run_overrides_untouched with (ovs := ovs).
Qed.

(** C2 on the notebook's sequence and the sample configuration: the
    "Model" scope is the assigned dict, the reuse factor of q_dense_1 is
    the baseline's. *)
Lemma overrides_last_write_wins_witness :
  exists merged,
    run_overrides spec_override_sequence sample_cfg = (merged, None)
    /\ lookup merged ["Model"; "Strategy"] = Some (VStr "Resource")
    /\ lookup merged ["LayerName"; "q_dense_1"; "ReuseFactor"]
       = lookup sample_cfg ["LayerName"; "q_dense_1"; "ReuseFactor"].
Proof.
  eexists. split; [reflexivity|].
  pose proof (overrides_last_write_wins spec_override_sequence sample_cfg _
                eq_refl) as [Hw Hu].
  split.
  - refine (Hw [] (Override [] "Model" _) _ ["Strategy"] eq_refl _).
    intros o' [<-|[<-|[<-|[]]]]; reflexivity.
  - apply Hu. intros o [<-|[<-|[<-|[<-|[]]]]]; reflexivity.
Defined.

(** C2 as stated fails: every target of the sequence exists in this
    baseline and the run raises nothing, no setting of the sequence touches
    ("Model", "BramFactor"), yet that entry of the baseline is gone from
    the merged dictionary. *)
Lemma model_assignment_drops_baseline_keys :
  let r := run_overrides spec_override_sequence explicit_cfg in
  snd r = None
  /\ Forall (fun s => entry explicit_cfg (s_scope s) (s_key s) <> None)
            spec_settings
  /\ ~ last_write_wins spec_settings explicit_cfg (fst r).
Proof.
  split; [reflexivity|]. split.
  - repeat constructor; vm_compute; discriminate.
  - intros H. specialize (H "Model" "BramFactor").
    vm_compute in H. discriminate.
Qed.

(** C4.  On any state where [cfg] is bound, the four assignments of the
    cell are the specification's sequence run in its order: "Model" with
    precision ap_fixed<16,6>, reuse factor 1 and strategy Resource, then
    reuse factor 112 for q_dense, strategy Latency for q_dense_1, strategy
    Stable for activation_2; the first exception stops the cell.  When all
    four complete, the dictionary holds exactly these values at the four
    addresses. *)
Theorem overrides_cell_runs_spec_sequence
        {Model Hls Registry : Type} (g : globals Model Hls Registry)
        (base : pyval) :
  g_cfg g = Some base ->
  spec_override_sequence =
    [ Override [] "Model" model_scope;
      Override ["LayerName"; "q_dense"] "ReuseFactor" (VInt 112);
      Override ["LayerName"; "q_dense_1"] "Strategy" (VStr "Latency");
      Override ["LayerName"; "activation_2"] "Strategy" (VStr "Stable") ]
  /\
  overrides g =
    (set_cfg (fst (run_overrides spec_override_sequence base)) g,
     outcome (snd (run_overrides spec_override_sequence base)))
  /\
  (forall merged,
      run_overrides spec_override_sequence base = (merged, None) ->
      lookup merged ["Model"] =
        Some (VDict [(KStr "Precision", VStr "ap_fixed<16,6>");
                     (KStr "ReuseFactor", VInt 1);
                     (KStr "Strategy", VStr "Resource")])
      /\ lookup merged ["LayerName"; "q_dense"; "ReuseFactor"]
         = Some (VInt 112)
      /\ lookup merged ["LayerName"; "q_dense_1"; "Strategy"]
         = Some (VStr "Latency")
      /\ lookup merged ["LayerName"; "activation_2"; "Strategy"]
         = Some (VStr "Stable")).
Proof.
  intros Hc. split; [reflexivity|]. split.
  - unfold overrides, bind, spec_override_sequence.
    cbn [run_overrides o_path o_key o_value].
    rewrite (assign_cfg_run g base _ _ _ Hc). fold model_scope.
    destruct (store_subscr base [] "Model" model_scope) as [c1|] eqn:H1;
      [|cbn [fst snd outcome]; now rewrite (set_cfg_same g base Hc)].
    rewrite (assign_cfg_run (set_cfg c1 g) c1 _ _ _ eq_refl).
    destruct (store_subscr c1 ["LayerName"; "q_dense"] "ReuseFactor"
                           (VInt 112)) as [c2|] eqn:H2; [|reflexivity].
    rewrite (assign_cfg_run (set_cfg c2 (set_cfg c1 g)) c2 _ _ _ eq_refl).
    destruct (store_subscr c2 ["LayerName"; "q_dense_1"] "Strategy"
                           (VStr "Latency")) as [c3|] eqn:H3; [|reflexivity].
    rewrite (assign_cfg_run (set_cfg c3 (set_cfg c2 (set_cfg c1 g))) c3
                            _ _ _ eq_refl).
    destruct (store_subscr c3 ["LayerName"; "activation_2"] "Strategy"
                           (VStr "Stable")) as [c4|] eqn:H4; reflexivity.
  - intros merged Hrun. repeat split.
    + refine (run_overrides_last_write [] _ (Override [] "Model" _)
                                       base merged Hrun _).
      intros o' [<-|[<-|[<-|[]]]]; reflexivity.
    + refine (run_overrides_last_write [_] _
                (Override ["LayerName"; "q_dense"] "ReuseFactor" _)
                base merged Hrun _).
      intros o' [<-|[<-|[]]]; reflexivity.
    + refine (run_overrides_last_write [_; _] _
                (Override ["LayerName"; "q_dense_1"] "Strategy" _)
                base merged Hrun _).
      intros o' [<-|[]]; reflexivity.
    + refine (run_overrides_last_write [_; _; _] []
                (Override ["LayerName"; "activation_2"] "Strategy" _)
                base merged Hrun _).
      intros o' [].
Qed.

(** C4 on the sample configuration. *)
Lemma overrides_cell_runs_spec_sequence_witness :
  let g := set_cfg sample_cfg (@fresh unit unit unit Mock.attrs0) in
  snd (overrides g) = Ok tt
  /\ exists merged,
      g_cfg (fst (overrides g)) = Some merged
      /\ lookup merged ["LayerName"; "q_dense"; "ReuseFactor"]
         = Some (VInt 112).
Proof.
  intros g.
  destruct (overrides_cell_runs_spec_sequence g sample_cfg eq_refl)
    as (_ & Hrun & Hval).
  split.
  - rewrite Hrun. reflexivity.
  - eexists. split.
    + rewrite Hrun. reflexivity.
    + exact (proj1 (proj2 (Hval _ eq_refl))).
Defined.

(** ** [print_dict] *)

(** The loop body of [print_dict] for the first item of a dict. *)
Lemma print_dict_cons (f : nat) (k : pykey) (value : pyval) (rest : pydict)
      (indent : Z) :
  print_dict (S f) (VDict ((k, value) :: rest)) indent =
  wbind (print (str_mul "  " indent ++ str_key k) "") (fun _ =>
  wbind
    match value with
    | VDict _ =>
        wbind (print "" nl) (fun _ => print_dict f value (indent + 1))
    | _ =>
        wbind (wlift (len_key k)) (fun n =>
        print (":" ++ str_mul " " (20 - n - 2 * indent) ++ str_scalar value)
              nl)
    end (fun _ =>
  print_dict (S f) (VDict rest) indent)).
Proof. reflexivity. Qed.








(** The loop body on an item whose value is not a dict and whose key is a
    string. *)
Lemma print_dict_scalar_item (f : nat) (k : string) (v : pyval)
      (rest : pydict) (indent : Z) :
  (forall sub, v <> VDict sub) ->
  print_dict (S f) (VDict ((KStr k, v) :: rest)) indent =
  (PrintCall (str_mul "  " indent ++ k) ""
   :: PrintCall (":" ++ str_mul " " (20 - Z.of_nat (py_len k) - 2 * indent)
                     ++ str_scalar v) nl
   :: fst (print_dict (S f) (VDict rest) indent),
   snd (print_dict (S f) (VDict rest) indent)).
Proof.
  intros Hv. rewrite print_dict_cons.
  destruct (print_dict (S f) (VDict rest) indent) as [o r].
  destruct v; try reflexivity. now destruct (Hv d).
Qed.








Lemma py_len_app (a b : string) :
  py_len (a ++ b) = (py_len a + py_len b)%nat.
Proof. induction a as [|c a IH]; simpl; auto. rewrite IH. lia. Qed.


(** An integer key with a value that is not a dict stops [print_dict] with
    [TypeError] after the key has been printed: the hypothesis on the keys
    is needed. *)
Example print_dict_int_key_raises :
  print_dict 1 (VDict [(KInt 7, VStr "x")]) 0
  = ([PrintCall "7" ""], Raise TypeError).
Proof. reflexivity. Qed.



(** ** [get_train_test_set] *)

Lemma pixel_range (p : byte) : 0 <= pixel p <= 255.
Proof.
  unfold pixel. pose proof (Byte.to_N_bounded p). lia.
Qed.

(** A [uint8] divided by 256 is in [0, 255/256]. *)
Lemma scaled_pixel_range (p : byte) :
  (0 <= pixel p # 256 /\ pixel p # 256 <= 255 # 256 /\ pixel p # 256 < 1)%Q.
Proof.
  pose proof (pixel_range p) as Hp.
  unfold Qle, Qlt. simpl. lia.
Qed.

(** What [reshape] returns when it returns. *)
Lemma reshape_rows_ok (x : list (list (list Q))) (m : matrix) :
  reshape_rows x = Ok m -> m = map (@List.concat Q) x.
Proof.
  unfold reshape_rows. destruct (List.length x =? 0)%nat;
    try discriminate.
  intros H. now inversion H.
Qed.

(** Images without pixels become rows without columns; only an array
    without images cannot be reshaped. *)
Example reshape_rows_without_pixels :
  reshape_rows (div_256 [[]; [[]; []]]) = Ok [[]; []]
  /\ reshape_rows (div_256 []) = Raise ValueError.
Proof. split; reflexivity. Qed.

Lemma flatten_div_256 (x : list image) :
  map (@List.concat Q) (div_256 x)
  = map (fun img => map (fun p => pixel p # 256) (List.concat img)) x.
Proof.
  unfold div_256. rewrite map_map. apply map_ext.
  intros img. now rewrite concat_map.
Qed.

Lemma to_categorical_ok (y : list byte) (n : nat) (m : matrix) :
  to_categorical y n = Ok m ->
  m = map (fun c => one_hot n (Byte.to_N c)) y
  /\ Forall (fun c => (Byte.to_N c < N.of_nat n)%N) y.
Proof.
  unfold to_categorical.
  destruct (forallb _ y) eqn:Hall; try discriminate.
  intros H. inversion H. split; auto.
  apply Forall_forall. intros c Hc.
  rewrite forallb_forall in Hall. apply N.ltb_lt. now apply Hall.
Qed.

Lemma one_hot_length (n : nat) (c : N) : List.length (one_hot n c) = n.
Proof. unfold one_hot. now rewrite length_map, length_seq. Qed.

Lemma one_hot_nth (n : nat) (c : N) (j : nat) :
  (j < n)%nat ->
  nth j (one_hot n c) 0%Q = if (N.of_nat j =? c)%N then 1%Q else 0%Q.
Proof.
  intros Hj. unfold one_hot.
  set (f := fun j : nat => if (N.of_nat j =? c)%N then 1%Q else 0%Q).
  rewrite (nth_indep (map f (seq 0 n)) 0%Q (f 0%nat))
    by now rewrite length_map, length_seq.
  rewrite map_nth, seq_nth by assumption. reflexivity.
Qed.

(** The pure part of [get_train_test_set], read off its result. *)
Lemma get_train_test_set_ok {Model Hls Registry : Type}
      (E : External Model Hls Registry) (g : globals Model Hls Registry)
      (tr_x tr_y te_x te_y : matrix) :
  snd (get_train_test_set E g) = Ok ((tr_x, tr_y), (te_x, te_y)) ->
  exists x_train y_train x_test y_test,
    mnist_load_data E = Ok ((x_train, y_train), (x_test, y_test))
    /\ reshape_rows (div_256 x_train) = Ok tr_x
    /\ reshape_rows (div_256 x_test) = Ok te_x
    /\ to_categorical y_train 10 = Ok tr_y
    /\ to_categorical y_test 10 = Ok te_y.
Proof.
  unfold get_train_test_set, bind, call, lift, ret.
  destruct (mnist_load_data E) as [[[x_train y_train] [x_test y_test]]|];
    simpl; try discriminate.
  destruct (reshape_rows (div_256 x_train)) as [a|] eqn:Ha;
    try discriminate.
  destruct (reshape_rows (div_256 x_test)) as [b|] eqn:Hb;
    try discriminate.
  destruct (to_categorical y_train 10) as [c|] eqn:Hc; try discriminate.
  destruct (to_categorical y_test 10) as [d|] eqn:Hd; try discriminate.
  simpl. intros H. inversion H. subst.
  exists x_train, y_train, x_test, y_test. auto.
Qed.

Lemma length_div_256 (x : list image) :
  List.length (div_256 x) = List.length x.
Proof. unfold div_256. apply length_map. Qed.

Lemma to_categorical_returns (y : list byte) (n : nat) :
  Forall (fun c => (Byte.to_N c < N.of_nat n)%N) y ->
  to_categorical y n = Ok (map (fun c => one_hot n (Byte.to_N c)) y).
Proof.
  intros Hy. unfold to_categorical.
  replace (forallb _ y) with true; auto.
  symmetry. apply forallb_forall. intros c Hc. apply N.ltb_lt.
  rewrite Forall_forall in Hy. now apply Hy.
Qed.

(** On arrays with at least one image and labels below 10 the function
    returns, also when the images have no pixels. *)
Lemma get_train_test_set_returns {Model Hls Registry : Type}
      (E : External Model Hls Registry) (g : globals Model Hls Registry)
      (x_train x_test : list image) (y_train y_test : list byte) :
  mnist_load_data E = Ok ((x_train, y_train), (x_test, y_test)) ->
  x_train <> [] ->
  x_test <> [] ->
  Forall (fun c => (Byte.to_N c < 10)%N) y_train ->
  Forall (fun c => (Byte.to_N c < 10)%N) y_test ->
  exists d, snd (get_train_test_set E g) = Ok d.
Proof.
  intros Hd Hx Hx' Hy Hy'.
  unfold get_train_test_set, bind, call, lift, ret. rewrite Hd. simpl.
  unfold reshape_rows. rewrite !length_div_256.
  destruct x_train as [|img1 x_train]; [now destruct Hx|].
  destruct x_test as [|img2 x_test]; [now destruct Hx'|].
  cbn [List.length Nat.eqb].
  rewrite (to_categorical_returns y_train 10 Hy).
  rewrite (to_categorical_returns y_test 10 Hy').
  eexists. reflexivity.
Qed.

(** C9.  When [get_train_test_set] returns, every sample is the row-major
    concatenation of its image's rows with each [uint8] pixel divided by
    256, so every feature is at least 0, at most 255/256 and below 1; every
    label row has exactly 10 columns, a one in the column of its class and
    zeros elsewhere. *)
Theorem get_train_test_set_scaled_flat_one_hot
        {Model Hls Registry : Type}
        (E : External Model Hls Registry) (g : globals Model Hls Registry)
        (tr_x tr_y te_x te_y : matrix) :
  snd (get_train_test_set E g) = Ok ((tr_x, tr_y), (te_x, te_y)) ->
  exists x_train y_train x_test y_test,
    mnist_load_data E = Ok ((x_train, y_train), (x_test, y_test))
    /\ tr_x = map (fun img => map (fun p => pixel p # 256) (List.concat img))
                  x_train
    /\ te_x = map (fun img => map (fun p => pixel p # 256) (List.concat img))
                  x_test
    /\ (forall sample v,
           In sample (tr_x ++ te_x) -> In v sample ->
           (0 <= v /\ v <= 255 # 256 /\ v < 1)%Q)
    /\ tr_y = map (fun c => one_hot 10 (Byte.to_N c)) y_train
    /\ te_y = map (fun c => one_hot 10 (Byte.to_N c)) y_test
    /\ (forall lab,
           In lab (tr_y ++ te_y) ->
           List.length lab = 10%nat
           /\ exists c, (c < 10)%nat
              /\ forall j, (j < 10)%nat ->
                   nth j lab 0%Q = if (j =? c)%nat then 1%Q else 0%Q).
Proof.
  intros H.
  apply get_train_test_set_ok
    in H as (x_train & y_train & x_test & y_test & Hd & Hx & Hx' & Hy & Hy').
  apply reshape_rows_ok in Hx, Hx'. rewrite flatten_div_256 in Hx, Hx'.
  apply to_categorical_ok in Hy as [Hy Hc], Hy' as [Hy' Hc'].
  exists x_train, y_train, x_test, y_test.
  repeat (split; [assumption|]). split; [|split; [assumption|split;
    [assumption|]]].
  - intros sample v Hs Hv.
    assert (Hin : In sample
                (map (fun img => map (fun p => pixel p # 256)
                                     (List.concat img))
                     (x_train ++ x_test))).
    { rewrite map_app. now subst. }
    apply in_map_iff in Hin as (img & <- & _).
    apply in_map_iff in Hv as (p & <- & _).
    apply scaled_pixel_range.
  - intros lab Hl.
    assert (Hin : In lab (map (fun c => one_hot 10 (Byte.to_N c))
                              (y_train ++ y_test))).
    { rewrite map_app. now subst. }
    apply in_map_iff in Hin as (c & <- & Hc0).
    assert (Hlt : (Byte.to_N c < 10)%N).
    { apply in_app_or in Hc0 as [Hc0|Hc0];
        [rewrite Forall_forall in Hc; now apply Hc
        |rewrite Forall_forall in Hc'; now apply Hc']. }
    split; [apply one_hot_length|].
    exists (N.to_nat (Byte.to_N c)). split; [lia|].
    intros j Hj. rewrite one_hot_nth by assumption.
    destruct (N.eqb_spec (N.of_nat j) (Byte.to_N c)) as [He|Hne];
      destruct (Nat.eqb_spec j (N.to_nat (Byte.to_N c))) as [He'|Hne'];
      auto; lia.
Qed.

(** C9 on the stand-in data set: one training image, two test images. *)
Lemma get_train_test_set_scaled_flat_one_hot_witness :
  let g := @fresh unit unit unit Mock.attrs0 in
  exists tr_x tr_y te_x te_y,
    snd (get_train_test_set Mock.backend g) = Ok ((tr_x, tr_y), (te_x, te_y))
    /\ (forall sample v,
           In sample (tr_x ++ te_x) -> In v sample ->
           (0 <= v /\ v <= 255 # 256 /\ v < 1)%Q)
    /\ (forall lab, In lab (tr_y ++ te_y) -> List.length lab = 10%nat).
Proof.
  intros g. do 4 eexists.
  split; [vm_compute; reflexivity|].
  destruct (get_train_test_set_scaled_flat_one_hot Mock.backend g _ _ _ _
              eq_refl)
    as (x_train & y_train & x_test & y_test & _ & _ & _ & Hv & _ & _ & Hl).
  split; [exact Hv|].
  intros lab Hin. exact (proj1 (Hl lab Hin)).
Defined.

(** ** A program logic for the cells *)

Section TripleRules.

Context {Model Hls Registry : Type}.
Local Abbreviation G := (globals Model Hls Registry).
Local Abbreviation prog := (NB Model Hls Registry).

Lemma triple_bind {A B} (P : G -> Prop) (m : prog A) (f : A -> prog B)
      (Q : G -> result A -> Prop) (R : G -> result B -> Prop) :
  triple P m Q ->
  (forall a, triple (fun g => Q g (Ok a)) (f a) R) ->
  (forall g e, Q g (Raise e) -> R g (Raise e)) ->
  triple P (bind m f) R.
Proof.
  intros Hm Hf He g Hg. specialize (Hm g Hg). unfold bind.
  destruct (m g) as [g' [a|e]]; simpl in *.
  - now apply Hf.
  - now apply He.
Qed.

Lemma triple_weaken {A} (P P' : G -> Prop) (m : prog A)
      (Q Q' : G -> result A -> Prop) :
  triple P m Q ->
  (forall g, P' g -> P g) ->
  (forall g r, Q g r -> Q' g r) ->
  triple P' m Q'.
Proof. intros Hm HP HQ g Hg. apply HQ, Hm, HP, Hg. Qed.

Lemma preserves_bind {A B} (I : G -> Prop) (m : prog A) (f : A -> prog B) :
  preserves I m -> (forall a, preserves I (f a)) -> preserves I (bind m f).
Proof.
  intros Hm Hf. eapply triple_bind; [exact Hm| |]; simpl; auto.
Qed.

Lemma preserves_ret {A} (I : G -> Prop) (a : A) : preserves I (ret a).
Proof. intros g Hg. exact Hg. Qed.

Lemma preserves_lift {A} (I : G -> Prop) (r : result A) :
  preserves I (lift r).
Proof. intros g Hg. exact Hg. Qed.

Lemma preserves_name {A} (I : G -> Prop) (n : string)
      (proj : G -> option A) :
  preserves I (name n proj).
Proof. intros g Hg. unfold name. now destruct (proj g). Qed.

Lemma preserves_modify (I : G -> Prop) (f : G -> G) :
  (forall g, I g -> I (f g)) -> preserves I (modify f).
Proof. intros Hf g Hg. now apply Hf. Qed.

Lemma preserves_call {A} (I : G -> Prop) (e : event Model Hls Registry)
      (r : result A) :
  (forall g, I g -> I (add_log [e] g)) -> preserves I (call e r).
Proof. intros He g Hg. now apply He. Qed.

Lemma preserves_run_print {A} (I : G -> Prop) (w : W A) :
  (forall g, I g -> I (add_log (map Stdout (fst w)) g)) ->
  preserves I (run_print w).
Proof. intros He g Hg. now apply He. Qed.

Lemma all_events_add_log (P : event Model Hls Registry -> Prop)
      (es : list (event Model Hls Registry)) (g : G) :
  Forall P es -> all_events P g -> all_events P (add_log es g).
Proof.
  unfold all_events. intros Hes Hg. simpl. apply Forall_app. now split.
Qed.

Lemma all_events_stdout (P : event Model Hls Registry -> Prop)
      (o : list print_call) :
  (forall c, P (Stdout c)) -> Forall P (map Stdout o).
Proof.
  intros HP. apply Forall_forall. intros e He.
  apply in_map_iff in He as (c & <- & _). apply HP.
Qed.

Lemma all_events_weaken (P Q : event Model Hls Registry -> Prop) (g : G) :
  (forall e, P e -> Q e) -> all_events P g -> all_events Q g.
Proof. unfold all_events. intros HPQ. now apply Forall_impl. Qed.

End TripleRules.

(** One rule of the logic, chosen by the head of the program; [side] closes
    what the rule leaves about the invariant. *)
Ltac nb_step side :=
  lazymatch goal with
  | |- preserves _ (bind _ _) => apply preserves_bind; [|intros ?]
  | |- preserves _ (ret _) => apply preserves_ret
  | |- preserves _ (lift _) => apply preserves_lift
  | |- preserves _ (name _ _) => apply preserves_name
  | |- preserves _ (modify _) => apply preserves_modify; intros ? ?; side
  | |- preserves _ (call _ _) => apply preserves_call; intros ? ?; side
  | |- preserves _ (run_print _) =>
      apply preserves_run_print; intros ? ?; side
  | |- preserves _ (let _ := _ in _) => cbv zeta
  | |- preserves _ (match ?d with _ => _ end) => destruct d
  end.

Ltac nb_preserves side := repeat nb_step side.

(** Side conditions for an invariant on the events alone. *)
Ltac log_side :=
  first
    [ assumption
    | apply all_events_add_log;
      [ first [ apply all_events_stdout; intros ?; exact I
              | repeat constructor ]
      | assumption ] ].

(** ** Events of the conversion and of the build *)

Section NotebookLog.

Context {Model Hls Registry : Type}.
Variable E : External Model Hls Registry.
Local Abbreviation G := (globals Model Hls Registry).

Lemma set_rounding_saturation_run (g : G) :
  set_rounding_saturation g = (set_orsm rounding_saturation g, Ok tt).
Proof. reflexivity. Qed.

Lemma get_train_test_set_preserves (I : G -> Prop) :
  (forall g, I g -> I (add_log [CallMnistLoad] g)) ->
  preserves I (get_train_test_set E).
Proof.
  intros HI. unfold get_train_test_set.
  apply preserves_bind; [now apply preserves_call|].
  intros d. nb_preserves idtac.
Qed.

End NotebookLog.

Lemma preserves_call_dep {Model Hls Registry A : Type}
      (I : globals Model Hls Registry -> Prop)
      (e : globals Model Hls Registry -> event Model Hls Registry)
      (r : globals Model Hls Registry -> result A) :
  (forall g, I g -> I (add_log [e g] g)) ->
  preserves I (fun g => call (e g) (r g) g).
Proof. intros He g Hg. now apply He. Qed.

(** The same for whole cells. *)
Ltac cell_step side :=
  lazymatch goal with
  | |- preserves _ (get_train_test_set _) =>
      apply get_train_test_set_preserves; intros ? ?; side
  | |- preserves _ (fun g => call _ _ g) =>
      apply preserves_call_dep; intros ? ?; side
  | |- _ => nb_step side
  end.

Ltac cell_preserves side :=
  unfold cell_imports, cell_load_model, cell_make_config, cell_overrides,
    overrides, assign_cfg, set_rounding_saturation, cell_convert,
    cell_predict, cell_accuracy, print_accuracy, cell_build, cell_report;
  repeat cell_step side.

Section NotebookRun.

Context {Model Hls Registry : Type}.
Variable E : External Model Hls Registry.
Local Abbreviation G := (globals Model Hls Registry).

Local Ltac converted_side :=
  idtac;
  match goal with
  | H : converted _ |- _ =>
      destruct H as [Hattrs Hlog]; split;
      [ exact Hattrs
      | first [ exact Hlog
              | apply all_events_add_log;
                [ first [ apply all_events_stdout; intros ?; exact I
                        | constructor; [exact Hattrs | constructor]
                        | repeat constructor ]
                | exact Hlog ] ] ]
  end.

Lemma cells_before_convert_do_not_convert :
  preserves (all_events not_convert) (cell_imports E)
  /\ preserves (all_events not_convert) (cell_load_model E)
  /\ preserves (all_events not_convert) (cell_make_config E).
Proof. repeat split; cell_preserves log_side. Qed.

(** The overrides cell calls no conversion, and when it completes the
    attributes are the rounding and saturation modes. *)
Lemma cell_overrides_sets_attributes :
  triple (all_events not_convert) (cell_overrides E)
         (fun g r => all_events not_convert g
                     /\ forall a, r = Ok a -> g_orsm g = rounding_saturation).
Proof.
  unfold cell_overrides.
  eapply triple_bind with (Q := fun g _ => all_events not_convert g).
  - change (preserves (all_events not_convert)
                      (@overrides Model Hls Registry)).
    cell_preserves log_side.
  - intros _.
    eapply triple_bind with (Q := fun g _ => all_events not_convert g).
    + apply preserves_name.
    + intros c.
      eapply triple_bind with (Q := fun g _ => all_events not_convert g).
      * apply preserves_run_print. intros g Hg. log_side.
      * intros _ g Hg. rewrite set_rounding_saturation_run. simpl.
        split; [exact Hg | reflexivity].
      * intros g e Hg. split; [exact Hg | discriminate].
    + intros g e Hg. split; [exact Hg | discriminate].
  - intros g e Hg. split; [exact Hg | discriminate].
Qed.

Lemma cells_from_convert_keep_attributes :
  preserves converted
    (bind (cell_convert E) (fun _ =>
     bind (cell_predict E) (fun _ =>
     bind (cell_accuracy E) (fun _ =>
     bind (cell_build E) (fun _ => cell_report E))))).
Proof. cell_preserves converted_side. Qed.

Lemma notebook_conversions_see_rounding :
  triple (all_events not_convert) (notebook E)
         (fun g _ => all_events convert_sees_rounding g).
Proof.
  assert (Hweak : forall g : G, all_events not_convert g ->
                                all_events convert_sees_rounding g).
  { intros g. apply all_events_weaken.
    intros ev Hev. destruct ev; simpl in *; auto. destruct Hev. }
  destruct cells_before_convert_do_not_convert as (H1 & H2 & H3).
  unfold notebook.
  eapply triple_bind; [exact H1| |intros g e; apply Hweak].
  intros ?. eapply triple_bind; [exact H2| |intros g e; apply Hweak].
  intros ?. eapply triple_bind; [exact H3| |intros g e; apply Hweak].
  intros ?. eapply triple_bind;
    [exact cell_overrides_sets_attributes| |intros g e [Hg _]; now apply Hweak].
  intros done. eapply triple_weaken.
  - exact cells_from_convert_keep_attributes.
  - intros g [Hg Hattrs]. split; [now apply (Hattrs done) | now apply Hweak].
  - intros g r [_ Hlog]. exact Hlog.
Qed.

Lemma notebook_builds_with_flags :
  preserves (all_events build_flags) (notebook E).
Proof. unfold notebook. cell_preserves log_side. Qed.

(** C3.  The three assignments change the optimizer's attributes and
    nothing else: the configuration dictionary and every other global are
    as before.  In a run of the notebook from a fresh kernel, whatever the
    libraries return and wherever the run stops, every call of
    [convert_from_keras_model] is made with the attributes already set:
    layers ['Activation'], rounding mode 'AP_RND', saturation mode
    'AP_SAT'. *)
Theorem rounding_saturation_set_before_conversion :
  (forall g : G,
      set_rounding_saturation g = (set_orsm rounding_saturation g, Ok tt)
      /\ g_cfg (fst (set_rounding_saturation g)) = g_cfg g)
  /\
  (forall a0,
      Forall convert_sees_rounding (g_log (fst (notebook E (fresh a0))))).
Proof.
  split.
  - intros g. split; reflexivity.
  - intros a0. apply (notebook_conversions_see_rounding (fresh a0)).
    constructor.
Qed.

(** C7.  The build cell calls [build] once, on the handle bound to
    [hls_model], with the four flags csim=False, synth=True, vsynth=True,
    export=False, and ends as that call ends; without a handle it raises
    [NameError] and calls nothing.  In a run of the notebook from a fresh
    kernel every call of [build] has these flags. *)
Theorem build_called_with_fixed_flags :
  (forall g : G,
      cell_build E g =
      match g_hls_model g with
      | Some h => (add_log [CallBuild h false true true false] g,
                   build E h false true true false)
      | None => (g, Raise (NameError "hls_model"))
      end)
  /\
  (forall a0, Forall build_flags (g_log (fst (notebook E (fresh a0))))).
Proof.
  split.
  - intros g. unfold cell_build, bind, name, call.
    destruct (g_hls_model g); reflexivity.
  - intros a0. apply (notebook_builds_with_flags (fresh a0)). constructor.
Qed.

End NotebookRun.

(** The notebook on the stand-in libraries runs to the end; the conversion
    is called once, after the attributes are set, and the build once. *)
Example mock_run_converts_and_builds :
  let g := fst (notebook Mock.backend (fresh Mock.attrs0)) in
  snd (notebook Mock.backend (fresh Mock.attrs0)) = Ok tt
  /\ filter (fun e => match e with
                      | CallConvert _ _ _ _ _ | CallBuild _ _ _ _ _ => true
                      | _ => false
                      end) (g_log g)
     = [ CallConvert tt (fst (run_overrides spec_override_sequence sample_cfg))
                     "section2_hls4ml_prj" "xcu250-figd2104-2L-e"
                     rounding_saturation;
         CallBuild tt false true true false ].
Proof. split; vm_compute; reflexivity. Qed.

(** ** The evaluator *)

Section Evaluator.

Context {Model Hls Registry : Type}.
Variable E : External Model Hls Registry.
Local Abbreviation G := (globals Model Hls Registry).

Lemma get_train_test_set_state (g : G) :
  fst (get_train_test_set E g) = add_log [CallMnistLoad] g.
Proof.
  unfold get_train_test_set, bind, call, lift, ret.
  destruct (mnist_load_data E) as [[[x_train y_train] [x_test y_test]]|];
    simpl; auto.
  destruct (reshape_rows (div_256 x_train)); auto.
  destruct (reshape_rows (div_256 x_test)); auto.
  destruct (to_categorical y_train 10); auto.
  destruct (to_categorical y_test 10); auto.
Qed.

(** The prediction cell when the data set and both predictions succeed. *)
Lemma cell_predict_run (g : G) (h : Hls) (m : Model)
      (tr : matrix * matrix) (x_test y_test y_hls y_qke : matrix) :
  g_hls_model g = Some h ->
  g_model g = Some m ->
  snd (get_train_test_set E g) = Ok (tr, (x_test, y_test)) ->
  hls_predict E h x_test = Ok y_hls ->
  model_predict E m x_test = Ok y_qke ->
  cell_predict E g =
  (set_y_qke y_qke
     (add_log [CallPredictModel m x_test]
        (set_y_hls y_hls
           (add_log [CallPredictHls h x_test]
              (set_data tr (x_test, y_test)
                 (add_log [CallMnistLoad] g))))),
   Ok tt).
Proof.
  intros Hh Hm Hd Hph Hpm. unfold cell_predict, bind at 1.
  pose proof (get_train_test_set_state g) as Hs.
  destruct (get_train_test_set E g) as [g1 r1]. simpl in Hd, Hs. subst.
  unfold bind, modify, name, call. simpl.
  rewrite Hh. simpl. rewrite Hph. simpl. rewrite Hm. simpl.
  now rewrite Hpm.
Qed.

(** One accuracy line when both argmax calls and the score succeed. *)
Lemma print_accuracy_run (g : G) (template yname : string)
      (proj : G -> option matrix) (x_test y_test y : matrix)
      (truth pred : list Z) (acc : Q) :
  g_test g = Some (x_test, y_test) ->
  proj g = Some y ->
  np_argmax_axis1 E y_test = Ok truth ->
  np_argmax_axis1 E y = Ok pred ->
  accuracy_score E truth pred = Ok acc ->
  print_accuracy E template yname proj g
  = (add_log [StdoutFmt template acc] g, Ok tt).
Proof.
  intros Ht Hy Ha Hb Hc. unfold print_accuracy, bind, name, lift, modify.
  rewrite Ht. simpl. rewrite Ha, Hy, Hb, Hc. reflexivity.
Qed.

(** C6.  With a model and a handle bound, and all library calls
    returning, the two evaluator cells end normally, whatever the two
    scores are.  What they do, in order: load the data set, call the
    emulation's [predict] and the model's [predict] on the same [x_test],
    and print two lines, each with the score [accuracy_score] gives for the
    argmax of the one-hot labels against the argmax of that model's
    predictions.  Nothing else is printed or called. *)
Theorem evaluator_reports_two_accuracies
        (g : G) (h : Hls) (m : Model) (tr : matrix * matrix)
        (x_test y_test y_hls y_qke : matrix)
        (truth pred_qke pred_hls : list Z) (acc_qke acc_hls : Q) :
  g_hls_model g = Some h ->
  g_model g = Some m ->
  snd (get_train_test_set E g) = Ok (tr, (x_test, y_test)) ->
  hls_predict E h x_test = Ok y_hls ->
  model_predict E m x_test = Ok y_qke ->
  np_argmax_axis1 E y_test = Ok truth ->
  np_argmax_axis1 E y_qke = Ok pred_qke ->
  np_argmax_axis1 E y_hls = Ok pred_hls ->
  accuracy_score E truth pred_qke = Ok acc_qke ->
  accuracy_score E truth pred_hls = Ok acc_hls ->
  let run := bind (cell_predict E) (fun _ => cell_accuracy E) g in
  snd run = Ok tt
  /\ g_log (fst run) =
     (g_log g ++ [ CallMnistLoad;
                   CallPredictHls h x_test;
                   CallPredictModel m x_test;
                   StdoutFmt "QKeras Accuracy: {}" acc_qke;
                   StdoutFmt "hls4ml Accuracy: {}" acc_hls ])%list.
Proof.
  intros Hh Hm Hd Hph Hpm Ht Hq Hs Haq Hah run.
  assert (Hrun : run =
    (add_log [StdoutFmt "hls4ml Accuracy: {}" acc_hls]
       (add_log [StdoutFmt "QKeras Accuracy: {}" acc_qke]
          (fst (cell_predict E g))), Ok tt)).
  { subst run. unfold bind at 1.
    rewrite (cell_predict_run g h m tr x_test y_test y_hls y_qke
                              Hh Hm Hd Hph Hpm).
    unfold cell_accuracy, bind.
    match goal with
    | |- context [print_accuracy E ?t ?n ?p ?g0] =>
        rewrite (print_accuracy_run g0 t n p x_test y_test y_qke
                   truth pred_qke acc_qke eq_refl eq_refl Ht Hq Haq)
    end.
    match goal with
    | |- context [print_accuracy E ?t ?n ?p ?g0] =>
        rewrite (print_accuracy_run g0 t n p x_test y_test y_hls
                   truth pred_hls acc_hls eq_refl eq_refl Ht Hs Hah)
    end.
    reflexivity. }
  rewrite Hrun.
  rewrite (cell_predict_run g h m tr x_test y_test y_hls y_qke
                            Hh Hm Hd Hph Hpm).
  split; [reflexivity|].
  cbn [fst g_log add_log set_y_qke set_y_hls set_data].
  rewrite <- !app_assoc. reflexivity.
Qed.

End Evaluator.

(** C6 on the stand-in libraries: the model scores 1, the emulation 1/2,
    and the cells end normally with both lines printed. *)
Lemma evaluator_reports_two_accuracies_witness :
  let g := set_hls_model tt (set_model tt (@fresh unit unit unit Mock.attrs0))
  in
  let run := bind (cell_predict Mock.backend)
                  (fun _ => cell_accuracy Mock.backend) g in
  snd run = Ok tt
  /\ exists x_test,
      g_log (fst run) =
      [ CallMnistLoad;
        CallPredictHls tt x_test;
        CallPredictModel tt x_test;
        StdoutFmt "QKeras Accuracy: {}" (2 # 2);
        StdoutFmt "hls4ml Accuracy: {}" (1 # 2) ].
Proof.
  intros g run.
  pose proof (evaluator_reports_two_accuracies Mock.backend g tt tt
                _ _ _ [Mock.probs 1; Mock.probs 1]
                [Mock.probs 1; Mock.probs 0]
                [1; 0] [1; 0] [1; 1] (2 # 2) (1 # 2)
                eq_refl eq_refl eq_refl eq_refl eq_refl eq_refl eq_refl
                eq_refl eq_refl eq_refl) as [Hr Hl].
  split; [exact Hr|]. eexists. exact Hl.
Defined.

(** ** The utilization report *)

Import Report.

(** C5.  Read with the layout of the specification, the checked-in report
    gives for the row "CLB LUTs*" Used 50888, Fixed 0, Available 1728000
    and Util% 2.94; the twelve rows of the CLB Logic table read as listed;
    and in every table with the four columns each figure read writes back
    to exactly the text of its cell, a blank cell being no figure. *)
Theorem fixture_report_figures :
  assoc "CLB LUTs*" (utilization vivado_synth_rpt)
  = Some (Figures (Some 50888) (Some 0) (Some 1728000) (Some (294 # 100)))
  /\ firstn 12 (utilization vivado_synth_rpt) =
     [ ("CLB LUTs*",
        Figures (Some 50888) (Some 0) (Some 1728000) (Some (294 # 100)));
       ("LUT as Logic",
        Figures (Some 50536) (Some 0) (Some 1728000) (Some (292 # 100)));
       ("LUT as Memory",
        Figures (Some 352) (Some 0) (Some 791040) (Some (4 # 100)));
       ("LUT as Distributed RAM", Figures (Some 0) (Some 0) None None);
       ("LUT as Shift Register", Figures (Some 352) (Some 0) None None);
       ("CLB Registers",
        Figures (Some 71920) (Some 0) (Some 3456000) (Some (208 # 100)));
       ("Register as Flip Flop",
        Figures (Some 71920) (Some 0) (Some 3456000) (Some (208 # 100)));
       ("Register as Latch",
        Figures (Some 0) (Some 0) (Some 3456000) (Some (0 # 100)));
       ("CARRY8",
        Figures (Some 1693) (Some 0) (Some 216000) (Some (78 # 100)));
       ("F7 Muxes",
        Figures (Some 2027) (Some 0) (Some 864000) (Some (23 # 100)));
       ("F8 Muxes",
        Figures (Some 795) (Some 0) (Some 432000) (Some (18 # 100)));
       ("F9 Muxes",
        Figures (Some 0) (Some 0) (Some 216000) (Some (0 # 100))) ]
  /\ report_exact vivado_synth_rpt = true.
Proof. repeat split; vm_compute; reflexivity. Qed.

(** C8, as the file has it.  The table of contents lists fifteen
    entries, sections 1 to 14 and subsection 1.1, and the sections follow
    in that order under those titles.  The tables of sections 1 to 7 have
    the columns Site Type, Used, Fixed, Available, Util%; section 11 has
    Used, Fixed, Available, Util% after an unnamed first column.  The other
    tables have columns of their own: 1.1, 8, 9, 10, 12, 13 and 14. *)
Theorem fixture_report_layout :
  table_of_contents vivado_synth_rpt =
    [ "1. CLB Logic"; "1.1 Summary of Registers by Type"; "2. BLOCKRAM";
      "3. ARITHMETIC"; "4. I/O"; "5. CLOCK"; "6. ADVANCED";
      "7. CONFIGURATION"; "8. Primitives"; "9. Black Boxes";
      "10. Instantiated Netlists"; "11. SLR Connectivity";
      "12. SLR Connectivity Matrix";
      "13. SLR CLB Logic and Dedicated Block Utilization";
      "14. SLR IO Utilization" ]
  /\ map title (body_sections vivado_synth_rpt)
     = table_of_contents vivado_synth_rpt
  /\ map (fun s => (title s, columns s))
         (filter has_util_columns (body_sections vivado_synth_rpt)) =
     [ ("1. CLB Logic", ["Site Type"; "Used"; "Fixed"; "Available"; "Util%"]);
       ("2. BLOCKRAM", ["Site Type"; "Used"; "Fixed"; "Available"; "Util%"]);
       ("3. ARITHMETIC",
        ["Site Type"; "Used"; "Fixed"; "Available"; "Util%"]);
       ("4. I/O", ["Site Type"; "Used"; "Fixed"; "Available"; "Util%"]);
       ("5. CLOCK", ["Site Type"; "Used"; "Fixed"; "Available"; "Util%"]);
       ("6. ADVANCED", ["Site Type"; "Used"; "Fixed"; "Available"; "Util%"]);
       ("7. CONFIGURATION",
        ["Site Type"; "Used"; "Fixed"; "Available"; "Util%"]);
       ("11. SLR Connectivity",
        [""; "Used"; "Fixed"; "Available"; "Util%"]) ]
  /\ map (fun s => (title s, columns s))
         (filter (fun s => negb (has_util_columns s))
                 (body_sections vivado_synth_rpt)) =
     [ ("1.1 Summary of Registers by Type",
        ["Total"; "Clock Enable"; "Synchronous"; "Asynchronous"]);
       ("8. Primitives", ["Ref Name"; "Used"; "Functional Category"]);
       ("9. Black Boxes", ["Ref Name"; "Used"]);
       ("10. Instantiated Netlists", ["Ref Name"; "Used"]);
       ("12. SLR Connectivity Matrix",
        ["FROM \ TO"; "SLR3"; "SLR2"; "SLR1"; "SLR0"]);
       ("13. SLR CLB Logic and Dedicated Block Utilization",
        ["Site Type"; "SLR0"; "SLR1"; "SLR2"; "SLR3";
         "SLR0 %"; "SLR1 %"; "SLR2 %"; "SLR3 %"]);
       ("14. SLR IO Utilization",
        ["SLR Index"; "Used IOBs"; "(%)IOBs"; "Used IPADs"; "(%)IPADs";
         "Used OPADs"; "(%)OPADs"; "GTs"]) ].
Proof. repeat split; vm_compute; reflexivity. Qed.

(** C8 as stated fails: section 8, Primitives, is a numbered section of
    the report and its table has the columns Ref Name, Used and Functional
    Category, without Fixed, Available and Util%. *)
Lemma primitives_section_has_other_columns :
  nth 159 vivado_synth_rpt "" = "8. Primitives"
  /\ nth 163 vivado_synth_rpt "" = "| Ref Name |  Used | Functional Category |"
  /\ ~ every_section_has_util_columns vivado_synth_rpt.
Proof.
  split; [reflexivity|]. split; [reflexivity|].
  unfold every_section_has_util_columns. rewrite Forall_forall. intros H.
  specialize (H (ReportSection "8. Primitives"
                   ["Ref Name"; "Used"; "Functional Category"]
                   (rows (nth 9 (sections vivado_synth_rpt)
                              (ReportSection "" [] [] [])))
                   [])).
  assert (Hin : In (ReportSection "8. Primitives"
                      ["Ref Name"; "Used"; "Functional Category"]
                      (rows (nth 9 (sections vivado_synth_rpt)
                                 (ReportSection "" [] [] [])))
                      [])
                   (body_sections vivado_synth_rpt)).
  { vm_compute. do 8 right. left. reflexivity. }
  specialize (H Hin). vm_compute in H. discriminate.
Qed.

(* ================================================================== *)
(** * Further properties of the notebook's code *)

(** ** Item assignment through a chain of subscripts *)

Lemma key_eqb_sym (a b : pykey) : key_eqb a b = key_eqb b a.
Proof.
  destruct a, b; simpl; auto using String.eqb_sym, Z.eqb_sym.
Qed.

(** A completed store went into a dict. *)
Lemma store_subscr_ok_scope (path : list string) :
  forall root k v root',
    store_subscr root path k v = Ok root' ->
    exists d, lookup root path = Some (VDict d).
Proof.
  induction path as [|p ps IH]; intros root k v root' H.
  - apply setitem_ok in H as (d & -> & _). simpl. eauto.
  - apply store_subscr_cons_ok in H as (d & sub & sub' & -> & Hd & Hs & _).
    simpl. rewrite Hd. now apply IH with (k := k) (v := v) (root' := sub').
Qed.

(** X1.  The assignment [root[p1]...[pn][k] = v] completes exactly when
    [root[p1]...[pn]] evaluates, and to a dict; the key [k] and the value
    play no part. *)
Theorem store_subscr_completes_iff_scope_is_dict
        (root : pyval) (path : list string) (k : string) (v : pyval) :
  (exists root', store_subscr root path k v = Ok root')
  <-> dict_at root path = true.
Proof.
  unfold dict_at. split.
  - intros [root' H]. apply store_subscr_ok_scope in H as [d ->].
    reflexivity.
  - destruct (lookup root path) as [[| | | |d]|] eqn:Hl; try discriminate.
    intros _. now apply store_subscr_existing_scope with (d := d).
Qed.

Lemma store_subscr_completes_iff_scope_is_dict_witness :
  (exists root',
      store_subscr sample_cfg ["LayerName"; "q_dense"] "Strategy"
                   (VStr "Latency") = Ok root')
  /\ ~ (exists root',
          store_subscr sample_cfg ["Model"; "Precision"] "bits" (VInt 16)
          = Ok root').
Proof.
  split.
  - apply (proj2 (store_subscr_completes_iff_scope_is_dict
                    sample_cfg ["LayerName"; "q_dense"] "Strategy"
                    (VStr "Latency"))).
    reflexivity.
  - intros H.
    apply (proj1 (store_subscr_completes_iff_scope_is_dict
                    sample_cfg ["Model"; "Precision"] "bits" (VInt 16)))
      in H.
    discriminate H.
Defined.

(** X2.  When the assignment raises, the exception is [TypeError] (a
    subscripted object is not a dict) or [KeyError] for one of the scope
    names [p1 ... pn]; never for the assigned key [k] itself, and the
    scopes before the failing one exist. *)
Theorem store_subscr_raises_only_for_scopes
        (path : list string) :
  forall root k v e,
    store_subscr root path k v = Raise e ->
    e = TypeError
    \/ exists pre p post d,
         path = (pre ++ p :: post)%list
         /\ lookup root pre = Some (VDict d)
         /\ dict_get d (KStr p) = None
         /\ e = KeyError (KStr p).
Proof.
  induction path as [|p ps IH]; intros root k v e H.
  - destruct root; simpl in H; inversion H; auto.
  - simpl in H. destruct root as [| | | |d]; simpl in H;
      try (inversion H; auto; fail).
    destruct (dict_get d (KStr p)) as [sub|] eqn:Hd; simpl in H.
    + destruct (store_subscr sub ps k v) as [sub'|e'] eqn:Hs; simpl in H;
        try discriminate.
      inversion H. subst e'.
      destruct (IH sub k v e Hs) as [->|(pre & q & post & d' & -> & Hl & Hq & ->)];
        auto.
      right. exists (p :: pre), q, post, d'. repeat split; auto.
      simpl. now rewrite Hd.
    + inversion H. right. exists [], p, ps, d. auto.
Qed.

Lemma store_subscr_raises_only_for_scopes_witness :
  store_subscr sample_cfg ["LayerName"; "q_dense_7"] "Strategy" (VStr "x")
  = Raise (KeyError (KStr "q_dense_7"))
  /\ (KeyError (KStr "q_dense_7") = TypeError
      \/ exists pre p post d,
           ["LayerName"; "q_dense_7"] = (pre ++ p :: post)%list
           /\ lookup sample_cfg pre = Some (VDict d)
           /\ dict_get d (KStr p) = None
           /\ KeyError (KStr "q_dense_7") = KeyError (KStr p)).
Proof.
  split; [reflexivity|].
  exact (store_subscr_raises_only_for_scopes
           ["LayerName"; "q_dense_7"] sample_cfg "Strategy" (VStr "x")
           _ eq_refl).
Defined.


Lemma dict_at_store_other (path : list string) (root : pyval) (k : string)
      (v root' : pyval) (a : list string) :
  store_subscr root path k v = Ok root' ->
  overlap (path ++ [k]) a = false ->
  dict_at root' a = dict_at root a.
Proof.
  intros Hs Ho. unfold dict_at.
  now rewrite (lookup_store_other path root k v root' a Hs Ho).
Qed.

Lemma forallb_agree {A} (f g : A -> bool) (l : list A) :
  (forall x, In x l -> f x = g x) -> forallb f l = forallb g l.
Proof.
  induction l as [|x l IH]; intros H; simpl; auto.
  rewrite (H x) by now left. rewrite IH; auto. intros y Hy. apply H. now right.
Qed.

Lemma dict_at_true (c : pyval) (a : list string) :
  dict_at c a = true <-> exists d, lookup c a = Some (VDict d).
Proof.
  unfold dict_at. split.
  - destruct (lookup c a) as [[| | | |d]|]; try discriminate. eauto.
  - now intros [d ->].
Qed.

(** When no override of a sequence writes to, into or around the scope a
    later one stores into, the sequence runs without exception exactly when
    every override's scope is a dict in the dictionary it starts from. *)
Lemma run_overrides_ok_iff (ovs : list override) :
  forall base,
    paths_independent ovs = true ->
    ((exists merged, run_overrides ovs base = (merged, None))
     <-> forallb (fun o => dict_at base (o_path o)) ovs = true).
Proof.
  induction ovs as [|o rest IH]; intros base Hind; simpl in *.
  - split; eauto.
  - apply andb_true_iff in Hind as [Hhead Hrest].
    rewrite forallb_forall in Hhead.
    assert (Hsame : forall c',
               store_subscr base (o_path o) (o_key o) (o_value o) = Ok c' ->
               forallb (fun o2 => dict_at c' (o_path o2)) rest
               = forallb (fun o2 => dict_at base (o_path o2)) rest).
    { intros c' Hs. apply forallb_agree. intros o2 Hin.
      apply dict_at_store_other with (1 := Hs).
      specialize (Hhead o2 Hin). now apply negb_true_iff in Hhead. }
    split.
    + intros [merged Hrun].
      destruct (store_subscr base (o_path o) (o_key o) (o_value o))
        as [c'|] eqn:Hs; try discriminate.
      apply andb_true_iff. split.
      * apply dict_at_true. now apply store_subscr_ok_scope in Hs.
      * rewrite <- (Hsame c' eq_refl). apply (IH c' Hrest). eauto.
    + intros H. apply andb_true_iff in H as [Ho Hall].
      apply dict_at_true in Ho as [d Ho].
      destruct (store_subscr_existing_scope (o_path o) base d (o_key o)
                  (o_value o) Ho) as [c' Hs].
      rewrite Hs. apply (IH c' Hrest). now rewrite (Hsame c' Hs).
Qed.

(** X3.  The four assignments of the notebook run without exception
    exactly when [cfg] is a dict and [cfg['LayerName']['q_dense']],
    [cfg['LayerName']['q_dense_1']] and [cfg['LayerName']['activation_2']]
    are dicts.  Neither "Model" nor the assigned keys need to exist. *)
Theorem overrides_complete_iff_layers_are_dicts (base : pyval) :
  (exists merged, run_overrides spec_override_sequence base = (merged, None))
  <-> is_dict base = true
      /\ dict_at base ["LayerName"; "q_dense"] = true
      /\ dict_at base ["LayerName"; "q_dense_1"] = true
      /\ dict_at base ["LayerName"; "activation_2"] = true.
Proof.
  rewrite (run_overrides_ok_iff spec_override_sequence base eq_refl).
  cbn [forallb spec_override_sequence o_path].
  change (dict_at base []) with (is_dict base).
  rewrite !andb_true_iff. tauto.
Qed.

Lemma overrides_complete_iff_layers_are_dicts_witness :
  (exists merged,
      run_overrides spec_override_sequence sample_cfg = (merged, None))
  /\ ~ (exists merged,
          run_overrides spec_override_sequence
            (VDict [(KStr "LayerName", VDict [(KStr "q_dense", VInt 1)])])
          = (merged, None)).
Proof.
  split.
  - apply (proj2 (overrides_complete_iff_layers_are_dicts sample_cfg)).
    repeat split.
  - intros H.
    apply (proj1 (overrides_complete_iff_layers_are_dicts _)) in H.
    destruct H as (_ & H & _). discriminate H.
Defined.

(** ** Assigning again *)

Lemma dict_set_same_value (d : pydict) (k : pykey) (v : pyval) :
  dict_get d k = Some v -> dict_set d k v = d.
Proof.
  induction d as [|[k' v'] d IH]; simpl; try discriminate.
  destruct (key_eqb k' k); intros H.
  - now inversion H.
  - now rewrite IH.
Qed.

(** Assigning the value an address already holds changes nothing. *)
Lemma store_subscr_same_value (path : list string) :
  forall root k v,
    lookup root (path ++ [k]) = Some v ->
    store_subscr root path k v = Ok root.
Proof.
  induction path as [|p ps IH]; intros root k v H; simpl in H.
  - destruct (getitem root k) as [x|] eqn:Hg; try discriminate.
    inversion H. subst x. apply getitem_ok in Hg as (d & -> & Hd).
    simpl. now rewrite dict_set_same_value.
  - destruct (getitem root p) as [sub|] eqn:Hg; try discriminate.
    simpl. rewrite Hg. simpl. rewrite (IH sub k v H). simpl.
    apply getitem_ok in Hg as (d & -> & Hd).
    simpl. now rewrite dict_set_same_value.
Qed.

(** X4.  An assignment that has completed can be repeated: the second run
    completes and leaves the dictionary exactly as the first left it, key
    order included. *)
Theorem store_subscr_idempotent
        (root : pyval) (path : list string) (k : string) (v root' : pyval) :
  store_subscr root path k v = Ok root' ->
  store_subscr root' path k v = Ok root'.
Proof.
  intros H. apply store_subscr_same_value.
  now apply lookup_store_same with (root := root).
Qed.

Lemma store_subscr_idempotent_witness :
  exists root',
    store_subscr sample_cfg ["LayerName"; "q_dense_1"] "Strategy"
                 (VStr "Latency") = Ok root'
    /\ root' <> sample_cfg
    /\ store_subscr root' ["LayerName"; "q_dense_1"] "Strategy"
                    (VStr "Latency") = Ok root'.
Proof.
  eexists. split; [reflexivity|]. split; [discriminate|].
  apply (store_subscr_idempotent sample_cfg). reflexivity.
Defined.

(** After a run, every override of a sequence with independent addresses
    is still in place. *)
Lemma run_overrides_all_in_place (ovs : list override) :
  forall base merged,
    addresses_independent ovs = true ->
    run_overrides ovs base = (merged, None) ->
    forall o, In o ovs -> lookup merged (addr o) = Some (o_value o).
Proof.
  induction ovs as [|o rest IH]; intros base merged Hind Hrun o' Hin.
  - destruct Hin.
  - simpl in Hind, Hrun. apply andb_true_iff in Hind as [Hhead Hrest].
    destruct (store_subscr base (o_path o) (o_key o) (o_value o))
      as [c'|] eqn:Hs; try discriminate.
    destruct Hin as [<-|Hin].
    + rewrite (run_overrides_untouched rest c' merged (addr o) Hrun).
      * now apply lookup_store_same with (root := base).
      * intros o2 Hin2. rewrite forallb_forall in Hhead.
        specialize (Hhead o2 Hin2). now apply negb_true_iff in Hhead.
    + now apply (IH c' merged Hrest Hrun).
Qed.

Lemma run_overrides_in_place_noop (ovs : list override) (c : pyval) :
  (forall o, In o ovs -> lookup c (addr o) = Some (o_value o)) ->
  run_overrides ovs c = (c, None).
Proof.
  induction ovs as [|o rest IH]; intros H; simpl; auto.
  rewrite store_subscr_same_value by (apply H; now left).
  apply IH. intros o' Hin. apply H. now right.
Qed.

(** X5.  Running a sequence of overrides with pairwise independent
    addresses a second time, on the dictionary the first run produced,
    raises nothing and changes nothing: re-executing the overrides cell is
    harmless. *)
Theorem run_overrides_idempotent
        (ovs : list override) (base merged : pyval) :
  addresses_independent ovs = true ->
  run_overrides ovs base = (merged, None) ->
  run_overrides ovs merged = (merged, None).
Proof.
  intros Hind Hrun. apply run_overrides_in_place_noop.
  now apply run_overrides_all_in_place with (base := base).
Qed.

Lemma run_overrides_idempotent_witness :
  exists merged,
    run_overrides spec_override_sequence sample_cfg = (merged, None)
    /\ merged <> sample_cfg
    /\ run_overrides spec_override_sequence merged = (merged, None).
Proof.
  eexists. split; [reflexivity|]. split; [discriminate|].
  apply (run_overrides_idempotent spec_override_sequence sample_cfg).
  - reflexivity.
  - reflexivity.
Defined.

(** ** Order and uniqueness of keys *)

Lemma dict_set_keys (d : pydict) (k : pykey) (v : pyval) :
  map fst (dict_set d k v) =
  if has_key d k then map fst d else (map fst d ++ [k])%list.
Proof.
  unfold has_key. induction d as [|[k' v'] d IH]; simpl; auto.
  destruct (key_eqb k' k); simpl; auto.
  rewrite IH. now destruct (dict_get d k).
Qed.

(** X6.  An assignment never reorders the keys of [root]: with a
    non-empty chain of scopes they are as before; assigned directly on
    [root], an existing key keeps its place and a new key goes last. *)
Theorem store_subscr_keeps_key_order
        (root : pyval) (path : list string) (k : string) (v root' : pyval) :
  store_subscr root path k v = Ok root' ->
  keys root' =
  match path, lookup root [k] with
  | [], None => (keys root ++ [KStr k])%list
  | _, _ => keys root
  end.
Proof.
  destruct path as [|p ps]; intros H.
  - apply setitem_ok in H as (d & -> & ->). simpl.
    rewrite dict_set_keys. unfold has_key.
    now destruct (dict_get d (KStr k)).
  - apply store_subscr_cons_ok in H as (d & sub & sub' & -> & Hd & _ & ->).
    simpl. rewrite dict_set_keys. unfold has_key. now rewrite Hd.
Qed.

Lemma store_subscr_keeps_key_order_witness :
  exists root' root'',
    store_subscr sample_cfg [] "Model" model_scope = Ok root'
    /\ keys root' = [KStr "Model"; KStr "LayerName"]
    /\ store_subscr sample_cfg [] "Backend" (VStr "Vivado") = Ok root''
    /\ keys root'' = [KStr "Model"; KStr "LayerName"; KStr "Backend"].
Proof.
  do 2 eexists. split; [reflexivity|]. split.
  - exact (store_subscr_keeps_key_order sample_cfg [] "Model" model_scope
             _ eq_refl).
  - split; [reflexivity|].
    exact (store_subscr_keeps_key_order sample_cfg [] "Backend"
             (VStr "Vivado") _ eq_refl).
Defined.

Lemma unique_keys_cons (k : pykey) (value : pyval) (rest : pydict) :
  unique_keys (VDict ((k, value) :: rest)) =
  negb (has_key rest k) && unique_keys value && unique_keys (VDict rest).
Proof. reflexivity. Qed.

Lemma unique_keys_dict_set (d : pydict) (k : pykey) (v : pyval) :
  unique_keys (VDict d) = true ->
  unique_keys v = true ->
  unique_keys (VDict (dict_set d k v)) = true.
Proof.
  intros Hd Hv. induction d as [|[k' v'] d IH].
  - simpl. now rewrite Hv.
  - rewrite unique_keys_cons in Hd.
    apply andb_true_iff in Hd as [Hd Hrest].
    apply andb_true_iff in Hd as [Hk' Hv'].
    simpl dict_set. destruct (key_eqb k' k) eqn:Hk.
    + rewrite unique_keys_cons, Hk', Hv, Hrest. reflexivity.
    + rewrite unique_keys_cons, Hv', (IH Hrest), !andb_true_r.
      unfold has_key in *.
      rewrite dict_get_set_other; auto. now rewrite key_eqb_sym.
Qed.

Lemma unique_keys_dict_get (d : pydict) (k : pykey) (v : pyval) :
  unique_keys (VDict d) = true ->
  dict_get d k = Some v ->
  unique_keys v = true.
Proof.
  induction d as [|[k' v'] d IH]; simpl dict_get; try discriminate.
  rewrite unique_keys_cons. intros Hd.
  apply andb_true_iff in Hd as [Hd Hrest].
  apply andb_true_iff in Hd as [_ Hv'].
  destruct (key_eqb k' k); intros H; [now inversion H; subst | auto].
Qed.

(** X7.  The assignment keeps the invariant of Python dicts in the
    embedding: when no dict of [root] or of the assigned value has a key
    twice, at any depth, none of the result has. *)
Theorem store_subscr_keeps_keys_unique (path : list string) :
  forall root k v root',
    unique_keys root = true ->
    unique_keys v = true ->
    store_subscr root path k v = Ok root' ->
    unique_keys root' = true.
Proof.
  induction path as [|p ps IH]; intros root k v root' Hroot Hv H.
  - apply setitem_ok in H as (d & -> & ->).
    now apply unique_keys_dict_set.
  - apply store_subscr_cons_ok in H as (d & sub & sub' & -> & Hd & Hs & ->).
    apply unique_keys_dict_set; auto.
    apply (IH sub k v sub'); auto.
    now apply unique_keys_dict_get with (d := d) (k := KStr p).
Qed.

Lemma store_subscr_keeps_keys_unique_witness :
  exists root',
    store_subscr sample_cfg ["LayerName"; "q_dense"] "ReuseFactor" (VInt 112)
    = Ok root'
    /\ unique_keys root' = true.
Proof.
  eexists. split; [reflexivity|].
  apply (store_subscr_keeps_keys_unique ["LayerName"; "q_dense"] sample_cfg
           "ReuseFactor" (VInt 112)); reflexivity.
Defined.

(** ** When [print_dict] raises, and where the values start *)




Lemma string_app_empty (a : string) : (a ++ "")%string = a.
Proof. induction a as [|c a IH]; simpl; auto. now rewrite IH. Qed.

Lemma str_mul_py_len (s : string) (n : Z) :
  0 <= n ->
  Z.of_nat (py_len (str_mul s n)) = Z.of_nat (py_len s) * n.
Proof.
  intros Hn. unfold str_mul. destruct (Z.leb_spec n 0) as [Hle|Hgt].
  - simpl. lia.
  - rewrite <- (Z2Nat.id n) at 2 by lia.
    induction (Z.to_nat n) as [|m IH].
    + simpl. lia.
    + assert (Hstep : String.concat "" (repeat s (S m))
                      = (s ++ String.concat "" (repeat s m))%string).
      { destruct m; [simpl; now rewrite string_app_empty | reflexivity]. }
      rewrite Hstep, py_len_app. lia.
Qed.

(** X9.  The column of the values.  For an item with a [str] key and a
    value that is not a dict, printed at an indentation [indent >= 0] with
    [2 * indent + len(key) <= 20], the indentation, the key, the colon and
    the padding together are 21 characters: the value always starts in
    the same column.  [len] and the 21 count characters, not bytes. *)
Theorem print_dict_aligns_values
        (f : nat) (k : string) (v : pyval) (rest : pydict) (indent : Z) :
  (forall sub, v <> VDict sub) ->
  0 <= indent ->
  2 * indent + Z.of_nat (py_len k) <= 20 ->
  exists pad,
    fst (print_dict (S f) (VDict ((KStr k, v) :: rest)) indent)
    = PrintCall (str_mul "  " indent ++ k) ""
      :: PrintCall (":" ++ pad ++ str_scalar v) nl
      :: fst (print_dict (S f) (VDict rest) indent)
    /\ py_len (str_mul "  " indent ++ k ++ ":" ++ pad) = 21%nat.
Proof.
  intros Hv Hi Hfit.
  exists (str_mul " " (20 - Z.of_nat (py_len k) - 2 * indent)).
  split.
  - now rewrite (print_dict_scalar_item f k v rest indent Hv).
  - apply Nat2Z.inj. rewrite !py_len_app, !Nat2Z.inj_add.
    rewrite !str_mul_py_len by lia. simpl py_len. lia.
Qed.

(** X9 on an ASCII key and on a key with a two-byte character. *)
Lemma print_dict_aligns_values_witness :
  (exists pad,
      fst (print_dict 1 (VDict [(KStr "ReuseFactor", VInt 112)]) 2)
      = [ PrintCall (str_mul "  " 2 ++ "ReuseFactor") "";
          PrintCall (":" ++ pad ++ "112") nl ]
      /\ py_len (str_mul "  " 2 ++ "ReuseFactor" ++ ":" ++ pad) = 21%nat)
  /\ py_len "détail" = 6%nat
  /\ (exists pad,
         fst (print_dict 1 (VDict [(KStr "détail", VInt 1)]) 0)
         = [ PrintCall "détail" ""; PrintCall (":" ++ pad ++ "1") nl ]
         /\ py_len ("détail" ++ ":" ++ pad) = 21%nat).
Proof.
  split; [|split].
  - refine (print_dict_aligns_values 0 "ReuseFactor" (VInt 112) [] 2 _ _ _).
    + intros sub. discriminate.
    + lia.
    + simpl. lia.
  - reflexivity.
  - refine (print_dict_aligns_values 0 "détail" (VInt 1) [] 0 _ _ _).
    + intros sub. discriminate.
    + lia.
    + simpl. lia.
Defined.

(** ** Printing the configuration after the overrides *)







(** The four assignments on the state, in terms of the run on the
    dictionary. *)
Lemma overrides_run {Model Hls Registry : Type}
      (g : globals Model Hls Registry) (base : pyval) :
  g_cfg g = Some base ->
  overrides g =
    (set_cfg (fst (run_overrides spec_override_sequence base)) g,
     outcome (snd (run_overrides spec_override_sequence base))).
Proof.
  intros Hc. unfold overrides, bind, spec_override_sequence.
  cbn [run_overrides o_path o_key o_value].
  rewrite (assign_cfg_run g base _ _ _ Hc). fold model_scope.
  destruct (store_subscr base [] "Model" model_scope) as [c1|] eqn:H1;
    [|cbn [fst snd outcome]; now rewrite (set_cfg_same g base Hc)].
  rewrite (assign_cfg_run (set_cfg c1 g) c1 _ _ _ eq_refl).
  destruct (store_subscr c1 ["LayerName"; "q_dense"] "ReuseFactor"
                         (VInt 112)) as [c2|] eqn:H2; [|reflexivity].
  rewrite (assign_cfg_run (set_cfg c2 (set_cfg c1 g)) c2 _ _ _ eq_refl).
  destruct (store_subscr c2 ["LayerName"; "q_dense_1"] "Strategy"
                         (VStr "Latency")) as [c3|] eqn:H3; [|reflexivity].
  rewrite (assign_cfg_run (set_cfg c3 (set_cfg c2 (set_cfg c1 g))) c3
                          _ _ _ eq_refl).
  destruct (store_subscr c3 ["LayerName"; "activation_2"] "Strategy"
                         (VStr "Stable")) as [c4|] eqn:H4; reflexivity.
Qed.

(** X11.  A failing override stops the cell at once.  When one of the four
    assignments raises, the cell ends with that exception: the dictionary
    is not printed, the optimizer's attributes are not assigned (rounding
    and saturation keep their earlier values), and [cfg] holds the
    assignments made before the failing one. *)
Theorem failed_override_skips_print_and_attributes
        {Model Hls Registry : Type} (E : External Model Hls Registry)
        (g : globals Model Hls Registry)
        (base stopped : pyval) (e : pyexc) :
  g_cfg g = Some base ->
  run_overrides spec_override_sequence base = (stopped, Some e) ->
  cell_overrides E g = (set_cfg stopped g, Raise e)
  /\ g_log (fst (cell_overrides E g)) = g_log g
  /\ g_orsm (fst (cell_overrides E g)) = g_orsm g.
Proof.
  intros Hc Hrun.
  assert (H : cell_overrides E g = (set_cfg stopped g, Raise e)).
  { unfold cell_overrides, bind at 1.
    rewrite (overrides_run g base Hc), Hrun. reflexivity. }
  rewrite H. repeat split.
Qed.

Lemma failed_override_skips_print_and_attributes_witness :
  let base := VDict [(KStr "LayerName", VDict [])] in
  let g := set_cfg base (@fresh unit unit unit Mock.attrs0) in
  exists stopped,
    cell_overrides Mock.backend g
    = (set_cfg stopped g, Raise (KeyError (KStr "q_dense")))
    /\ lookup stopped ["Model"] = Some model_scope
    /\ g_log (fst (cell_overrides Mock.backend g)) = []
    /\ g_orsm (fst (cell_overrides Mock.backend g)) = Mock.attrs0.
Proof.
  intros base g. eexists.
  destruct (failed_override_skips_print_and_attributes Mock.backend g base
              _ _ eq_refl eq_refl) as (Hcell & Hlog & Hattrs).
  split; [exact Hcell|]. split; [reflexivity|].
  split; [exact Hlog | exact Hattrs].
Defined.



(** ** The order of the library calls *)

Section CallOrderRules.

Context {Model Hls Registry : Type}.
Local Abbreviation G := (globals Model Hls Registry).
Local Abbreviation prog := (NB Model Hls Registry).
Variable P : list string.







End CallOrderRules.



Section CallOrderOfNotebook.

Context {Model Hls Registry : Type}.
Variable E : External Model Hls Registry.



End CallOrderOfNotebook.

(** ** A run that ends normally *)

Section NormalRun.

Context {Model Hls Registry : Type}.
Variable E : External Model Hls Registry.
Local Abbreviation G := (globals Model Hls Registry).

Lemma bind_ok {A B} (m : NB Model Hls Registry A)
      (f : A -> NB Model Hls Registry B) (g : G) (b : B) :
  snd (bind m f g) = Ok b ->
  exists a, snd (m g) = Ok a /\ bind m f g = f a (fst (m g)).
Proof.
  unfold bind. destruct (m g) as [g' [a|e]]; simpl; try discriminate.
  eauto.
Qed.

Lemma cell_imports_ok (g : G) :
  snd (cell_imports E g) = Ok tt ->
  exists co,
    add_supported_quantized_objects E = Ok co
    /\ fst (cell_imports E g) = set_co co (add_log [CallAddQuantized] g).
Proof.
  unfold cell_imports, bind, call, modify.
  destruct (add_supported_quantized_objects E) as [co|]; simpl;
    try discriminate.
  eauto.
Qed.

Lemma cell_load_model_ok (g : G) (co : Registry) :
  g_co g = Some co ->
  snd (cell_load_model E g) = Ok tt ->
  exists m,
    load_model E "./section2_model_0.h5" co = Ok m
    /\ fst (cell_load_model E g)
       = set_model m (add_log [CallLoadModel "./section2_model_0.h5" co] g).
Proof.
  intros Hco. unfold cell_load_model, bind, name, call, modify.
  rewrite Hco.
  destruct (load_model E "./section2_model_0.h5" co) as [m|]; simpl;
    try discriminate.
  eauto.
Qed.

Lemma cell_make_config_ok (g : G) (m : Model) :
  g_model g = Some m ->
  snd (cell_make_config E g) = Ok tt ->
  exists base,
    config_from_keras_model E m "name" = Ok base
    /\ fst (cell_make_config E g)
       = add_log (map Stdout (fst (print_dict (recursion_headroom E) base 0)))
           (set_cfg base (add_log [CallConfigFromKeras m "name"] g)).
Proof.
  intros Hm. unfold cell_make_config, bind, name, call, modify, run_print.
  rewrite Hm.
  destruct (config_from_keras_model E m "name") as [base|]; simpl;
    try discriminate.
  eauto.
Qed.

Lemma cell_overrides_cases (g : G) (base : pyval) :
  g_cfg g = Some base ->
  cell_overrides E g =
  match run_overrides spec_override_sequence base with
  | (stopped, Some e) => (set_cfg stopped g, Raise e)
  | (merged, None) =>
      match snd (print_dict (recursion_headroom E) merged 0) with
      | Ok _ =>
          (set_orsm rounding_saturation
             (add_log (map Stdout (fst (print_dict (recursion_headroom E) merged 0)))
                (set_cfg merged g)), Ok tt)
      | Raise e =>
          (add_log (map Stdout (fst (print_dict (recursion_headroom E) merged 0)))
             (set_cfg merged g), Raise e)
      end
  end.
Proof.
  intros Hc. unfold cell_overrides, bind at 1.
  rewrite (overrides_run g base Hc).
  destruct (run_overrides spec_override_sequence base) as [merged [e|]];
    cbn [fst snd outcome]; [reflexivity|].
  unfold bind, name, run_print. cbn [g_cfg set_cfg].
  destruct (snd (print_dict (recursion_headroom E) merged 0)); reflexivity.
Qed.

Lemma cell_overrides_ok (g : G) (base : pyval) :
  g_cfg g = Some base ->
  snd (cell_overrides E g) = Ok tt ->
  exists merged,
    run_overrides spec_override_sequence base = (merged, None)
    /\ fst (cell_overrides E g)
       = set_orsm rounding_saturation
           (add_log (map Stdout (fst (print_dict (recursion_headroom E) merged 0)))
              (set_cfg merged g)).
Proof.
  intros Hc. rewrite (cell_overrides_cases g base Hc).
  destruct (run_overrides spec_override_sequence base) as [merged [e|]];
    cbn [snd]; try discriminate.
  destruct (snd (print_dict (recursion_headroom E) merged 0)); cbn [snd fst]; try discriminate.
  intros _. exists merged. split; reflexivity.
Qed.

Lemma cell_convert_ok (g : G) (m : Model) (c : pyval) :
  g_model g = Some m ->
  g_cfg g = Some c ->
  snd (cell_convert E g) = Ok tt ->
  exists h,
    convert_from_keras_model E m c "section2_hls4ml_prj"
                             "xcu250-figd2104-2L-e" (g_orsm g) = Ok h
    /\ compile E h = Ok tt
    /\ fst (cell_convert E g)
       = add_log [CallCompile h]
           (set_hls_model h
              (add_log [CallConvert m c "section2_hls4ml_prj"
                                    "xcu250-figd2104-2L-e" (g_orsm g)] g)).
Proof.
  intros Hm Hc. unfold cell_convert, bind, name, call, modify.
  rewrite Hm, Hc.
  destruct (convert_from_keras_model E m c _ _ (g_orsm g)) as [h|]; simpl;
    try discriminate.
  destruct (compile E h) as [[]|] eqn:Hcomp; simpl; try discriminate.
  intros _. exists h. auto.
Qed.

Lemma cell_predict_ok (g : G) (h : Hls) (m : Model) :
  g_hls_model g = Some h ->
  g_model g = Some m ->
  snd (cell_predict E g) = Ok tt ->
  exists tr x_test y_test y_hls y_qke,
    snd (get_train_test_set E g) = Ok (tr, (x_test, y_test))
    /\ hls_predict E h x_test = Ok y_hls
    /\ model_predict E m x_test = Ok y_qke.
Proof.
  intros Hh Hm. unfold cell_predict, bind at 1.
  pose proof (get_train_test_set_state E g) as Hs.
  destruct (get_train_test_set E g) as [g1 [[tr [x_test y_test]]|]];
    simpl in Hs; subst; simpl; try discriminate.
  unfold bind, modify, name, call. simpl. rewrite Hh. simpl.
  destruct (hls_predict E h x_test) as [y_hls|] eqn:Hph; simpl;
    try discriminate.
  rewrite Hm. simpl.
  destruct (model_predict E m x_test) as [y_qke|] eqn:Hpm; simpl;
    try discriminate.
  intros _. exists tr, x_test, y_test, y_hls, y_qke. auto.
Qed.

Lemma cell_accuracy_ok (g : G) (x_test y_test y_hls y_qke : matrix) :
  g_test g = Some (x_test, y_test) ->
  g_y_hls g = Some y_hls ->
  g_y_qke g = Some y_qke ->
  snd (cell_accuracy E g) = Ok tt ->
  exists truth pred_qke pred_hls acc_qke acc_hls,
    np_argmax_axis1 E y_test = Ok truth
    /\ np_argmax_axis1 E y_qke = Ok pred_qke
    /\ np_argmax_axis1 E y_hls = Ok pred_hls
    /\ accuracy_score E truth pred_qke = Ok acc_qke
    /\ accuracy_score E truth pred_hls = Ok acc_hls
    /\ fst (cell_accuracy E g)
       = add_log [StdoutFmt "hls4ml Accuracy: {}" acc_hls]
           (add_log [StdoutFmt "QKeras Accuracy: {}" acc_qke] g).
Proof.
  intros Ht Hh Hq H.
  unfold cell_accuracy, print_accuracy, bind, name, lift, modify in H |- *.
  rewrite Ht in H |- *. simpl in H |- *.
  destruct (np_argmax_axis1 E y_test) as [truth|] eqn:Htruth;
    simpl in H |- *; try discriminate.
  rewrite Hq in H |- *.
  destruct (np_argmax_axis1 E y_qke) as [pred_qke|] eqn:Hpq;
    simpl in H |- *; try discriminate.
  destruct (accuracy_score E truth pred_qke) as [acc_qke|] eqn:Haq;
    simpl in H |- *; try discriminate.
  repeat (rewrite ?Ht, ?Htruth, ?Hh in H |- *; simpl in H |- *).
  destruct (np_argmax_axis1 E y_hls) as [pred_hls|] eqn:Hph;
    simpl in H |- *; try discriminate.
  repeat (rewrite ?Htruth in H |- *; simpl in H |- *).
  destruct (accuracy_score E truth pred_hls) as [acc_hls|] eqn:Hah;
    simpl in H |- *; try discriminate.
  exists truth, pred_qke, pred_hls, acc_qke, acc_hls. auto 10.
Qed.

Lemma cell_build_ok (g : G) (h : Hls) :
  g_hls_model g = Some h ->
  snd (cell_build E g) = Ok tt ->
  build E h false true true false = Ok tt
  /\ fst (cell_build E g) = add_log [CallBuild h false true true false] g.
Proof.
  intros Hh. unfold cell_build, bind, name, call. rewrite Hh. simpl. auto.
Qed.

Lemma cell_report_ok (g : G) (h : Hls) :
  g_hls_model g = Some h ->
  snd (cell_report E g) = Ok tt ->
  exists dir,
    get_output_dir E h = Ok dir
    /\ read_vivado_report E dir = Ok tt
    /\ fst (cell_report E g) = add_log [CallReadReport dir] g.
Proof.
  intros Hh. unfold cell_report, bind, name, lift, call. rewrite Hh. simpl.
  destruct (get_output_dir E h) as [dir|]; simpl; try discriminate.
  intros H. exists dir. auto.
Qed.

End NormalRun.

Lemma get_train_test_set_result_indep {Model Hls Registry : Type}
      (E : External Model Hls Registry) (g g' : globals Model Hls Registry) :
  snd (get_train_test_set E g) = snd (get_train_test_set E g').
Proof.
  unfold get_train_test_set, bind, call, lift, ret.
  destruct (mnist_load_data E) as [[[x_train y_train] [x_test y_test]]|];
    simpl; auto.
  destruct (reshape_rows (div_256 x_train)); auto.
  destruct (reshape_rows (div_256 x_test)); auto.
  destruct (to_categorical y_train 10); auto.
  destruct (to_categorical y_test 10); auto.
Qed.

Section NormalRunOfNotebook.

Context {Model Hls Registry : Type}.
Variable E : External Model Hls Registry.

(** Moves a hypothesis on a sequence of cells past its first cell. *)
Local Ltac first_cell H Hcell :=
  let Heq := fresh "Heq" in
  destruct (bind_ok _ _ _ _ H) as ([] & Hcell & Heq);
  rewrite Heq in H |- *; clear Heq.

(** X14.  What a run that ends normally has done.  The model comes from
    [load_model] with the registry of quantized objects; the dictionary
    from [config_from_keras_model] on that model is printed, overridden and
    printed again; [convert_from_keras_model] gets that model, the
    overridden dictionary and the rounding and saturation attributes;
    [compile], [predict] and [build] act on the handle the conversion
    returned; both predictions are on the same test features; the report is
    read from the directory that handle names.  The log is exactly these
    events in this order. *)
Theorem notebook_normal_run (a0 : optimizer_attrs) :
  snd (notebook E (fresh a0)) = Ok tt ->
  exists co m base merged h tr x_test y_test y_hls y_qke
         truth pred_qke pred_hls acc_qke acc_hls dir,
    add_supported_quantized_objects E = Ok co
    /\ load_model E "./section2_model_0.h5" co = Ok m
    /\ config_from_keras_model E m "name" = Ok base
    /\ run_overrides spec_override_sequence base = (merged, None)
    /\ convert_from_keras_model E m merged "section2_hls4ml_prj"
         "xcu250-figd2104-2L-e" rounding_saturation = Ok h
    /\ compile E h = Ok tt
    /\ snd (get_train_test_set E (fresh a0)) = Ok (tr, (x_test, y_test))
    /\ hls_predict E h x_test = Ok y_hls
    /\ model_predict E m x_test = Ok y_qke
    /\ np_argmax_axis1 E y_test = Ok truth
    /\ np_argmax_axis1 E y_qke = Ok pred_qke
    /\ np_argmax_axis1 E y_hls = Ok pred_hls
    /\ accuracy_score E truth pred_qke = Ok acc_qke
    /\ accuracy_score E truth pred_hls = Ok acc_hls
    /\ build E h false true true false = Ok tt
    /\ get_output_dir E h = Ok dir
    /\ read_vivado_report E dir = Ok tt
    /\ g_train (fst (notebook E (fresh a0))) = Some tr
    /\ g_test (fst (notebook E (fresh a0))) = Some (x_test, y_test)
    /\ g_log (fst (notebook E (fresh a0))) =
       ([ CallAddQuantized;
          CallLoadModel "./section2_model_0.h5" co;
          CallConfigFromKeras m "name" ]
        ++ map Stdout (fst (print_dict (recursion_headroom E) base 0))
        ++ map Stdout (fst (print_dict (recursion_headroom E) merged 0))
        ++ [ CallConvert m merged "section2_hls4ml_prj"
                         "xcu250-figd2104-2L-e" rounding_saturation;
             CallCompile h;
             CallMnistLoad;
             CallPredictHls h x_test;
             CallPredictModel m x_test;
             StdoutFmt "QKeras Accuracy: {}" acc_qke;
             StdoutFmt "hls4ml Accuracy: {}" acc_hls;
             CallBuild h false true true false;
             CallReadReport dir ])%list.
Proof.
  intros H. unfold notebook in H |- *.
  first_cell H H1.
  apply cell_imports_ok in H1 as (co & Hco & S1).
  rewrite S1 in H |- *. clear S1.
  first_cell H H2.
  apply cell_load_model_ok with (co := co) in H2 as (m & Hm & S2);
    [|reflexivity].
  rewrite S2 in H |- *. clear S2.
  first_cell H H3.
  apply cell_make_config_ok with (m := m) in H3 as (base & Hbase & S3);
    [|reflexivity].
  rewrite S3 in H |- *. clear S3.
  first_cell H H4.
  apply cell_overrides_ok with (base := base) in H4
    as (merged & Hmerged & S4); [|reflexivity].
  rewrite S4 in H |- *. clear S4.
  first_cell H H5.
  apply cell_convert_ok with (m := m) (c := merged) in H5
    as (h & Hh & Hcompile & S5); [|reflexivity..].
  rewrite S5 in H |- *. clear S5.
  first_cell H H6.
  apply cell_predict_ok with (h := h) (m := m) in H6
    as (tr & x_test & y_test & y_hls & y_qke & Hdata & Hph & Hpm);
    [|reflexivity..].
  match type of H with
  | context [cell_predict E ?g] =>
      rewrite (cell_predict_run E g h m tr x_test y_test y_hls y_qke
                 eq_refl eq_refl Hdata Hph Hpm) in H |- *
  end.
  cbn [fst] in H |- *.
  first_cell H H7.
  apply cell_accuracy_ok
    with (x_test := x_test) (y_test := y_test) (y_hls := y_hls)
         (y_qke := y_qke) in H7
    as (truth & pq & ph & aq & ah & Ht & Hq & Hs & Haq & Hah & S7);
    [|reflexivity..].
  rewrite S7 in H |- *. clear S7.
  first_cell H H8.
  apply cell_build_ok with (h := h) in H8 as (Hbuild & S8); [|reflexivity].
  rewrite S8 in H |- *. clear S8.
  apply cell_report_ok with (h := h) in H as (dir & Hdir & Hreport & S9);
    [|reflexivity].
  rewrite S9.
  rewrite (get_train_test_set_result_indep E _ (fresh a0)) in Hdata.
  exists co, m, base, merged, h, tr, x_test, y_test, y_hls, y_qke,
         truth, pq, ph, aq, ah, dir.
  repeat (split; [assumption|]).
  split; [reflexivity|]. split; [reflexivity|].
  cbn [g_log add_log set_co set_model set_cfg set_orsm set_hls_model
       set_data set_y_hls set_y_qke fresh].
  repeat rewrite <- app_assoc. reflexivity.
Qed.

End NormalRunOfNotebook.

Lemma notebook_normal_run_witness :
  exists merged x_test,
    run_overrides spec_override_sequence sample_cfg = (merged, None)
    /\ filter (fun e => match call_name e with Some _ => true | None => false end)
              (g_log (fst (notebook Mock.backend (fresh Mock.attrs0))))
       = [ CallAddQuantized;
           CallLoadModel "./section2_model_0.h5" tt;
           CallConfigFromKeras tt "name";
           CallConvert tt merged "section2_hls4ml_prj"
                       "xcu250-figd2104-2L-e" rounding_saturation;
           CallCompile tt;
           CallMnistLoad;
           CallPredictHls tt x_test;
           CallPredictModel tt x_test;
           CallBuild tt false true true false;
           CallReadReport "section2_hls4ml_prj" ].
Proof.
  destruct (notebook_normal_run Mock.backend Mock.attrs0 eq_refl)
    as (co & m & base & merged & h & tr & x_test & y_test & y_hls & y_qke
        & truth & pq & ph & aq & ah & dir & _ & _ & Hbase & Hmerged & _ & _
        & _ & _ & _ & _ & _ & _ & _ & _ & _ & Hdir & _ & _ & _ & Hlog).
  inversion Hbase. subst base. inversion Hdir. subst dir.
  destruct co, m, h.
  exists merged, x_test. split; [exact Hmerged|].
  rewrite Hlog, !filter_app.
  assert (Hout : forall o,
             filter (fun e : event unit unit unit =>
                       match call_name e with
                       | Some _ => true | None => false end)
                    (map Stdout o) = []).
  { induction o; simpl; auto. }
  rewrite !Hout. reflexivity.
Defined.

(** ** Shapes of the data set *)

Lemma length_concat_rows {A} (w : nat) (img : list (list A)) :
  Forall (fun row => List.length row = w) img ->
  List.length (List.concat img) = (List.length img * w)%nat.
Proof.
  induction 1 as [|row img Hrow _ IH]; simpl; auto.
  rewrite length_app, IH, Hrow. reflexivity.
Qed.

(** X15.  Shapes.  When the images all have [h] rows of [w] pixels and
    [get_train_test_set] returns, the returned feature matrices have one
    row per image and [h * w] columns, and the label matrices one row per
    label: 784 features for the 28 by 28 images of MNIST. *)
Theorem get_train_test_set_shapes
        {Model Hls Registry : Type}
        (E : External Model Hls Registry) (g : globals Model Hls Registry)
        (h w : nat) (x_train x_test : list image) (y_train y_test : list byte)
        (tr_x tr_y te_x te_y : matrix) :
  mnist_load_data E = Ok ((x_train, y_train), (x_test, y_test)) ->
  rectangular h w x_train ->
  rectangular h w x_test ->
  snd (get_train_test_set E g) = Ok ((tr_x, tr_y), (te_x, te_y)) ->
  List.length tr_x = List.length x_train
  /\ List.length te_x = List.length x_test
  /\ List.length tr_y = List.length y_train
  /\ List.length te_y = List.length y_test
  /\ (forall sample, In sample (tr_x ++ te_x) ->
                     List.length sample = (h * w)%nat).
Proof.
  intros Hload Hr Hr' H.
  apply get_train_test_set_ok
    in H as (x1 & y1 & x2 & y2 & Hd & Hx & Hx' & Hy & Hy').
  rewrite Hload in Hd. inversion Hd. subst x1 y1 x2 y2. clear Hd.
  apply reshape_rows_ok in Hx, Hx'. rewrite flatten_div_256 in Hx, Hx'.
  apply to_categorical_ok in Hy as [Hy _], Hy' as [Hy' _].
  subst. rewrite !length_map. repeat (split; [reflexivity|]).
  intros sample Hin. rewrite <- map_app in Hin.
  apply in_map_iff in Hin as (img & <- & Himg).
  rewrite length_map.
  assert (Hrect : rectangular h w (x_train ++ x_test))
    by (apply Forall_app; now split).
  unfold rectangular in Hrect. rewrite Forall_forall in Hrect.
  destruct (Hrect img Himg) as [Hrows Hcols].
  now rewrite (length_concat_rows w img Hcols), Hrows.
Qed.

Lemma get_train_test_set_shapes_witness :
  let g := @fresh unit unit unit Mock.attrs0 in
  exists tr_x tr_y te_x te_y,
    snd (get_train_test_set Mock.backend g) = Ok ((tr_x, tr_y), (te_x, te_y))
    /\ List.length tr_x = 1%nat
    /\ List.length te_x = 2%nat
    /\ (forall sample, In sample (tr_x ++ te_x) ->
                       List.length sample = 4%nat).
Proof.
  intros g. do 4 eexists. split; [vm_compute; reflexivity|].
  assert (Hr : rectangular 2 2 (fst (fst Mock.data)))
    by (repeat constructor).
  assert (Hr' : rectangular 2 2 (fst (snd Mock.data)))
    by (repeat constructor).
  destruct (get_train_test_set_shapes Mock.backend g 2 2 _ _ _ _ _ _ _ _
              eq_refl Hr Hr' eq_refl)
    as (H1 & H2 & _ & _ & Hs).
  split; [exact H1|]. split; [exact H2 | exact Hs].
Defined.
